(** * neural-open.nvim: scripts/update-default-weights.py

    A shallow embedding of the weight-conversion script and the properties
    of its four stages: validation, architecture inference, formatting and
    emission.

    Python values are given the types that the input format gives them: a
    row is a list of numbers, a matrix a list of rows, a network field a
    list of matrices, a network a dict from key names to fields.  Exceptions
    are values of [exn], carried by [result].  Loops that append to a list
    are left folds that append, as in the script. *)

From Stdlib Require Import String Ascii List Bool Arith ZArith Lia.
From Stdlib Require Import DecimalString Permutation.
Import ListNotations.
Open Scope string_scope.

Set Implicit Arguments.

(** ** Python primitives used by the script *)

Module Py.

Inductive exn : Type :=
| ValueError (msg : string)
| IndexError (msg : string)
| KeyError (key : string).

Inductive result (A : Type) : Type :=
| Ok (a : A)
| Raise (e : exn).

Arguments Ok {A} a.
Arguments Raise {A} e.

Definition bind {A B : Type} (r : result A) (k : A -> result B) : result B :=
  match r with
  | Ok a => k a
  | Raise e => Raise e
  end.

(** [for x in xs: acc = body acc x], stopping at the first exception. *)
Fixpoint for_each {A S : Type} (xs : list A) (acc : S)
         (body : S -> A -> result S) : result S :=
  match xs with
  | [] => Ok acc
  | x :: rest => bind (body acc x) (fun acc' => for_each rest acc' body)
  end.

(** [xs[i]] on a list. *)
Definition index {A : Type} (xs : list A) (i : nat) : result A :=
  match nth_error xs i with
  | Some x => Ok x
  | None => Raise (IndexError "list index out of range")
  end.

(** [xs.append(x)] *)
Definition append {A : Type} (xs : list A) (x : A) : list A :=
  List.app xs [x].

(** [not xs] on a list. *)
Definition is_empty {A : Type} (xs : list A) : bool :=
  match xs with
  | [] => true
  | _ :: _ => false
  end.

Definition nl : string := String "010"%char EmptyString.
Definition dquote : string := String "034"%char EmptyString.

(** [sep.join(parts)] *)
Fixpoint join (sep : string) (parts : list string) : string :=
  match parts with
  | [] => ""
  | [p] => p
  | p :: rest => p ++ sep ++ join sep rest
  end.

(** [s.split(c)] for a one-character separator. *)
Fixpoint split_on (c : ascii) (s : string) : list string :=
  match s with
  | EmptyString => [""]
  | String a rest =>
      if Ascii.eqb a c then "" :: split_on c rest
      else match split_on c rest with
           | [] => [String a ""]
           | l :: ls => String a l :: ls
           end
  end.

(** [c in s] for a character. *)
Fixpoint mentions (c : ascii) (s : string) : bool :=
  match s with
  | EmptyString => false
  | String a rest => Ascii.eqb a c || mentions c rest
  end.

Definition split_lines (s : string) : list string := split_on "010"%char s.

Definition single_line (s : string) : bool := negb (mentions "010"%char s).

(** [s * n] *)
Fixpoint repeat_str (s : string) (n : nat) : string :=
  match n with
  | O => ""
  | S n' => s ++ repeat_str s n'
  end.

(** [str(n)] on a non-negative int. *)
Definition str_nat (n : nat) : string :=
  NilZero.string_of_uint (Nat.to_uint n).

(** [repr(z)] on an int. *)
Definition repr_int (z : Z) : string :=
  NilZero.string_of_int (Z.to_int z).

(** A dict, as the list of its items in insertion order. *)
Definition dict (V : Type) : Type := list (string * V).

(** [key in d] *)
Definition contains {V : Type} (d : dict V) (key : string) : bool :=
  existsb (fun kv => String.eqb key (fst kv)) d.

(** [d.get(key)] *)
Fixpoint get {V : Type} (d : dict V) (key : string) : option V :=
  match d with
  | [] => None
  | (k, v) :: rest => if String.eqb key k then Some v else get rest key
  end.

(** [d.get(key, default)] *)
Definition get_default {V : Type} (d : dict V) (key : string) (default : V) : V :=
  match get d key with
  | Some v => v
  | None => default
  end.

(** [d[key]] *)
Definition getitem {V : Type} (d : dict V) (key : string) : result V :=
  match get d key with
  | Some v => Ok v
  | None => Raise (KeyError key)
  end.

End Py.

Import Py.

Notation "x <- r ;; k" := (bind r (fun x => k))
  (at level 61, r at next level, right associativity).

(** ** The conversion script *)

Definition NETWORK_KEY_ORDER : list string :=
  [ "running_vars";
    "running_means";
    "weights";
    "betas";
    "gammas";
    "biases" ].

Section Script.

(** JSON numbers as Python holds them, and Python's [repr] on them. *)
Variable number : Type.
Variable repr : number -> string.

Definition row : Type := list number.
Definition matrix : Type := list row.
Definition field_data : Type := list matrix.
Definition network_t : Type := dict field_data.

Definition infer_architecture (weights : list matrix) : result (list nat) :=
  if is_empty weights then Raise (ValueError "No weight matrices found")
  else
    first <- index weights 0 ;;
    let arch := [List.length first] in
    for_each weights arch
      (fun arch layer =>
         r0 <- index layer 0 ;;
         Ok (append arch (List.length r0))).

Definition format_number (value : number) : string := repr value.

(** The formatters raise nothing on lists of numbers, so they are plain
    string-valued functions. *)
Definition format_array (values : list number) (indent_level : nat) : string :=
  let indent := repeat_str "  " indent_level in
  match values with
  | [v] => (* len(values) == 1, and v is values[0] *)
      "{ " ++ format_number v ++ " }"
  | _ =>
      let lines := ["{"] in
      let inner_indent := repeat_str "  " (indent_level + 1) in
      let lines :=
        fold_left
          (fun lines val => append lines (inner_indent ++ format_number val ++ ","))
          values lines in
      let lines := append lines (indent ++ "}") in
      join nl lines
  end.

Definition format_matrix (m : matrix) (indent_level : nat) : string :=
  let indent := repeat_str "  " indent_level in
  let lines := ["{"] in
  let inner_indent := repeat_str "  " (indent_level + 1) in
  let lines :=
    fold_left
      (fun lines r =>
         let formatted_row := format_array r (indent_level + 1) in
         append lines (inner_indent ++ formatted_row ++ ","))
      m lines in
  let lines := append lines (indent ++ "}") in
  join nl lines.

Definition format_network_field (fd : field_data) (indent_level : nat) : string :=
  let indent := repeat_str "  " indent_level in
  let lines := ["{"] in
  let inner_indent := repeat_str "  " (indent_level + 1) in
  let lines :=
    fold_left
      (fun lines layer_matrix =>
         let formatted_matrix := format_matrix layer_matrix (indent_level + 1) in
         append lines (inner_indent ++ formatted_matrix ++ ","))
      fd lines in
  let lines := append lines (indent ++ "}") in
  join nl lines.

Definition version_labels : dict string :=
  [ ("2.0-hinge", "v2.0 pairwise hinge loss") ].

Definition generate_lua (version : string) (network : network_t)
           (architecture : list nat) : result string :=
  let arch_str := join " -> " (map str_nat architecture) in
  let lines := [] in
  let lines := append lines "--- Default neural network weights for neural-open" in
  let lines := append lines "--- Auto-generated from trained weights - DO NOT EDIT MANUALLY" in
  let lines := append lines "---" in
  let lines := append lines "--- These weights are used as defaults when no user weights exist." in
  let lines := append lines "--- They represent a pre-trained network that provides good initial file ranking." in
  let lines := append lines "---" in
  let lines := append lines ("--- Network architecture: " ++ arch_str) in
  let lines := append lines ("--- Training format: " ++ get_default version_labels version version) in
  let lines := append lines "" in
  let lines := append lines "return {" in
  let lines := append lines ("  version = " ++ dquote ++ version ++ dquote ++ ",") in
  let lines := append lines "  network = {" in
  lines <- for_each NETWORK_KEY_ORDER lines
             (fun lines key =>
                fd <- getitem network key ;;
                let formatted := format_network_field fd 2 in
                Ok (append lines
                      ("    [" ++ dquote ++ key ++ dquote ++ "] = " ++ formatted ++ ","))) ;;
  let lines := append lines "  }," in
  let lines := append lines "}" in
  let lines := append lines "" in
  Ok (join nl lines).

(** *** The program and its environment *)

(** The parsed document.  Each nested object is a record of the keys the
    script looks up; a key that the document may lack is an option. *)
Record nn_data_t : Type :=
  { key_version : option string;
    key_network : option network_t }.

Record nn_t : Type := { key_nn_nn : option nn_data_t }.

Record data_t : Type := { key_nn : option nn_t }.

Inductive json_load_result : Type :=
| JSONDecodeError (e : string)
| Loaded (data : data_t).

(** [json.load] on the text of a file, and the destination path that the
    script derives from its own location. *)
Variable json_load : string -> json_load_result.
Variable output_path : string.

(** Files by path; [None] where no file exists. *)
Definition filesystem : Type := string -> option string.

(** [with open(path, "w") as f: f.write(content)] *)
Definition write_file (fs : filesystem) (path content : string) : filesystem :=
  fun p => if String.eqb p path then Some content else fs p.

(** How the process ends: [sys.exit(code)] or falling off the end of
    [main] (code 0), or an exception that nothing catches, on which the
    interpreter prints a traceback and exits with status 1. *)
Inductive termination : Type :=
| Exit (code : Z)
| Uncaught (e : exn).

Definition exit_code (t : termination) : Z :=
  match t with
  | Exit code => code
  | Uncaught _ => 1%Z
  end.

Record run : Type :=
  { stdout : list string;
    stderr : list string;
    term : termination;
    files : filesystem }.

(** [print(msg, file=sys.stderr); sys.exit(1)] *)
Definition die (fs : filesystem) (msg : string) : run :=
  {| stdout := []; stderr := [msg]; term := Exit 1; files := fs |}.

(** [main], from the parsed command line on.  [arg_input] is the optional
    positional argument.  Reading an existing file and writing the output
    file are taken to succeed.  The loop over [NETWORK_KEY_ORDER] that
    checks the keys stops at the first key the network lacks: it is the
    [find] below.  The three steps after it raise into the same uncaught
    exception, since [main] has no handler around them. *)
Definition main (arg_input : option string) (fs : filesystem) : run :=
  let input := match arg_input with
               | Some path => path
               | None => "./weights.json"
               end in
  match fs input with
  | None => die fs ("Error: Input file not found: " ++ input)
  | Some text =>
  match json_load text with
  | JSONDecodeError e => die fs ("Error: Invalid JSON in " ++ input ++ ": " ++ e)
  | Loaded data =>
  match key_nn data with
  | None => die fs "Error: Missing 'nn' key in weights.json"
  | Some nn =>
  match key_nn_nn nn with
  | None => die fs "Error: Missing 'nn.nn' key in weights.json"
  | Some nn_data =>
  match key_version nn_data with
  | None => die fs "Error: Missing 'nn.nn.version' in weights.json"
  | Some version =>
  match key_network nn_data with
  | None => die fs "Error: Missing 'nn.nn.network' in weights.json"
  | Some network =>
  match find (fun key => negb (contains network key)) NETWORK_KEY_ORDER with
  | Some key => die fs ("Error: Missing network key '" ++ key ++ "' in weights.json")
  | None =>
  match (weights <- getitem network "weights" ;;
         architecture <- infer_architecture weights ;;
         lua_content <- generate_lua version network architecture ;;
         Ok (architecture, lua_content)) with
  | Raise e => {| stdout := []; stderr := []; term := Uncaught e; files := fs |}
  | Ok (architecture, lua_content) =>
      {| stdout :=
           [ "Wrote default weights to " ++ output_path;
             "  Architecture: " ++ join " -> " (map str_nat architecture);
             "  Version: " ++ version;
             "  Extracted: " ++ join ", " NETWORK_KEY_ORDER ];
         stderr := [];
         term := Exit 0;
         files := write_file fs output_path lua_content |}
  end end end end end end end end.

End Script.

Arguments Loaded {number} data.
Arguments JSONDecodeError {number} e.

(** ** Vocabulary of the statements *)

Section Layout.

Variable number : Type.
Variable repr : number -> string.
Variable json_load : string -> json_load_result number.

(** The column count of a matrix: the length of its first row. *)
Definition column_count (layer : matrix number) : nat :=
  List.length (hd [] layer).

Definition row_count (layer : matrix number) : nat := List.length layer.

(** The line that carries one value of a multi-line array. *)
Definition value_line (indent_level : nat) (v : number) : string :=
  repeat_str "  " (indent_level + 1) ++ repr v ++ ",".

(** The lines of the multi-line form: the opening brace, one line per
    value, the closing brace at the indentation of the enclosing scope. *)
Definition block_lines (values : list number) (indent_level : nat) : list string :=
  "{" :: List.app (map (value_line indent_level) values)
                  [repeat_str "  " indent_level ++ "}"].

(** The lines that precede the fields: the header comment with the
    architecture summary and the training-format label, then the opening of
    the table with the version field. *)
Definition header_lines (arch_str label version : string) : list string :=
  [ "--- Default neural network weights for neural-open";
    "--- Auto-generated from trained weights - DO NOT EDIT MANUALLY";
    "---";
    "--- These weights are used as defaults when no user weights exist.";
    "--- They represent a pre-trained network that provides good initial file ranking.";
    "---";
    "--- Network architecture: " ++ arch_str;
    "--- Training format: " ++ label;
    "";
    "return {";
    "  version = " ++ dquote ++ version ++ dquote ++ ",";
    "  network = {" ].

(** The line of one field: its key as a bracketed string label, then its
    formatted value. *)
Definition field_line (key : string) (fd : field_data number) : string :=
  "    [" ++ dquote ++ key ++ dquote ++ "] = "
  ++ format_network_field repr fd 2 ++ ",".

Definition footer_lines : list string := [ "  },"; "}"; "" ].

(** The path that [main] reads: the positional argument or its default. *)
Definition input_path (arg_input : option string) : string :=
  match arg_input with
  | Some path => path
  | None => "./weights.json"
  end.

(** The input file exists, parses, and holds [nn.nn.version] and
    [nn.nn.network]: every check before the network keys passes. *)
Definition loads (arg_input : option string) (fs : filesystem)
           (version : string) (network : network_t number) : Prop :=
  exists text,
    fs (input_path arg_input) = Some text
    /\ json_load text
       = Loaded {| key_nn :=
                     Some {| key_nn_nn :=
                               Some {| key_version := Some version;
                                       key_network := Some network |} |} |}.

Definition missing_key_message (key : string) : string :=
  "Error: Missing network key '" ++ key ++ "' in weights.json".

End Layout.

Arguments column_count {number} layer.
Arguments row_count {number} layer.

(** ** The script on integer-valued documents

    Python's [repr] on an int is its decimal numeral, so on documents whose
    numbers are all ints the script is the following instance. *)

Module IntDoc.

Definition number : Type := Z.

(** A 3x5 and a 5x2 weight matrix. *)
Definition layer1 : matrix number :=
  [ [1; 2; 3; 4; 5]; [6; 7; 8; 9; 10]; [-1; -2; -3; -4; -5] ]%Z.
Definition layer2 : matrix number :=
  [ [1; 0]; [0; 1]; [1; 1]; [2; 0]; [0; -2] ]%Z.

(** A one-layer network, 2 inputs and 2 outputs, keys in document order. *)
Definition weights1 : field_data number := [ [ [1; 2]; [3; 4] ] ]%Z.
Definition biases1 : field_data number := [ [ [0; -1] ] ]%Z.
Definition gammas1 : field_data number := [ [ [1; 1] ] ]%Z.
Definition betas1 : field_data number := [ [ [0; 0] ] ]%Z.
Definition means1 : field_data number := [ [ [5; 6] ] ]%Z.
Definition vars1 : field_data number := [ [ [7; 8] ] ]%Z.

Definition full_network : network_t number :=
  [ ("weights", weights1); ("biases", biases1); ("gammas", gammas1);
    ("betas", betas1); ("running_means", means1); ("running_vars", vars1) ].

(** The same items in another order. *)
Definition reordered_network : network_t number :=
  [ ("running_vars", vars1); ("betas", betas1); ("weights", weights1);
    ("running_means", means1); ("biases", biases1); ("gammas", gammas1) ].

(** The same fields with one more key, which the script ignores. *)
Definition extended_network : network_t number :=
  [ ("stats", []); ("biases", biases1); ("weights", weights1);
    ("gammas", gammas1); ("betas", betas1); ("running_vars", vars1);
    ("running_means", means1) ].

Definition no_biases_network : network_t number :=
  [ ("weights", weights1); ("gammas", gammas1);
    ("betas", betas1); ("running_means", means1); ("running_vars", vars1) ].

Definition empty_weights_network : network_t number :=
  [ ("weights", []); ("biases", biases1); ("gammas", gammas1);
    ("betas", betas1); ("running_means", means1); ("running_vars", vars1) ].

Definition document (version : string) (network : network_t number) : data_t number :=
  {| key_nn :=
       Some {| key_nn_nn :=
                 Some {| key_version := Some version;
                         key_network := Some network |} |} |}.

Definition q (s : string) : string := dquote ++ s ++ dquote.

Definition json_text (network_json : string) : string :=
  "{" ++ q "nn" ++ ":{" ++ q "nn" ++ ":{" ++ q "version" ++ ":" ++ q "2.0-hinge"
  ++ "," ++ q "network" ++ ":{" ++ network_json ++ "}}}}".

Definition no_biases_text : string :=
  json_text (q "weights" ++ ":[[[1,2],[3,4]]]," ++ q "gammas" ++ ":[[[1,1]]],"
             ++ q "betas" ++ ":[[[0,0]]]," ++ q "running_means" ++ ":[[[5,6]]],"
             ++ q "running_vars" ++ ":[[[7,8]]]").

Definition empty_weights_text : string :=
  json_text (q "weights" ++ ":[]," ++ q "biases" ++ ":[[[0,-1]]],"
             ++ q "gammas" ++ ":[[[1,1]]],"
             ++ q "betas" ++ ":[[[0,0]]]," ++ q "running_means" ++ ":[[[5,6]]],"
             ++ q "running_vars" ++ ":[[[7,8]]]").

(** [json.load] on the two texts above; any other text is taken as
    malformed. *)
Definition json_load (text : string) : json_load_result number :=
  if String.eqb text no_biases_text
  then Loaded (document "2.0-hinge" no_biases_network)
  else if String.eqb text empty_weights_text
  then Loaded (document "2.0-hinge" empty_weights_network)
  else JSONDecodeError "Expecting value: line 1 column 1 (char 0)".

Definition output_path : string :=
  "/repo/lua/neural-open/algorithms/nn_default_weights.lua".

(** A file system whose only file is [./weights.json]. *)
Definition only_weights_json (text : string) : filesystem :=
  fun path => if String.eqb path "./weights.json" then Some text else None.

Definition main (arg_input : option string) (fs : filesystem) : run :=
  main repr_int json_load output_path arg_input fs.

End IntDoc.

(** ** Vocabulary of the further properties *)

(** [s.count(c)] for a character. *)
Fixpoint count_char (c : ascii) (s : string) : nat :=
  match s with
  | EmptyString => 0
  | String a rest => (if Ascii.eqb a c then 1 else 0) + count_char c rest
  end.

(** A string that holds neither brace. *)
Definition brace_free (s : string) : bool :=
  Nat.eqb (count_char "{" s) 0 && Nat.eqb (count_char "}" s) 0.

(** The lines of a nested item inside its parent: the first line follows
    the parent's inner indentation, the last is followed by the separator. *)
Definition prefix_first (p : string) (ls : list string) : list string :=
  match ls with
  | [] => []
  | l :: rest => (p ++ l) :: rest
  end.

Fixpoint suffix_last (q : string) (ls : list string) : list string :=
  match ls with
  | [] => []
  | [l] => [l ++ q]
  | l :: rest => l :: suffix_last q rest
  end.

Definition item_lines (indent_level : nat) (text : string) : list string :=
  prefix_first (repeat_str "  " (indent_level + 1))
               (suffix_last "," (split_lines text)).

(** [s.startswith(p)] *)
Fixpoint starts_with (p s : string) : bool :=
  match p with
  | EmptyString => true
  | String a p' =>
      match s with
      | EmptyString => false
      | String b s' => Ascii.eqb a b && starts_with p' s'
      end
  end.

(** Every line starts with the indentation of the given depth. *)
Definition indented (indent_level : nat) (ls : list string) : bool :=
  forallb (starts_with (repeat_str "  " indent_level)) ls.

(** The number of tables in the rendering of a field: the field, its
    matrices and their rows. *)
Definition table_count (A : Type) (fd : list (list A)) : nat :=
  1 + List.length fd + list_sum (map (@List.length A) fd).

(** What [infer_architecture] looks at in a layer: the length of its first
    row, if it has one. *)
Definition first_row_length (A : Type) (layer : list (list A)) : option nat :=
  option_map (@List.length A) (hd_error layer).

(** A test that holds of every number of a field. *)
Definition all_values (A : Type) (P : A -> bool) (fd : list (list (list A))) : bool :=
  forallb (forallb (forallb P)) fd.

(** A second instance on ints, whose loader knows a complete document. *)
Module IntRun.

Definition full_text : string :=
  IntDoc.json_text
    (IntDoc.q "weights" ++ ":[[[1,2],[3,4]]]," ++ IntDoc.q "biases" ++ ":[[[0,-1]]],"
     ++ IntDoc.q "gammas" ++ ":[[[1,1]]]," ++ IntDoc.q "betas" ++ ":[[[0,0]]],"
     ++ IntDoc.q "running_means" ++ ":[[[5,6]]],"
     ++ IntDoc.q "running_vars" ++ ":[[[7,8]]]").

(** A network whose second weight matrix has no rows. *)
Definition zero_row_network : network_t IntDoc.number :=
  [ ("weights", [ [ [1; 2]; [3; 4] ]; [] ]%Z); ("biases", IntDoc.biases1);
    ("gammas", IntDoc.gammas1); ("betas", IntDoc.betas1);
    ("running_means", IntDoc.means1); ("running_vars", IntDoc.vars1) ].

Definition zero_row_text : string :=
  IntDoc.json_text
    (IntDoc.q "weights" ++ ":[[[1,2],[3,4]],[]]," ++ IntDoc.q "biases" ++ ":[[[0,-1]]],"
     ++ IntDoc.q "gammas" ++ ":[[[1,1]]]," ++ IntDoc.q "betas" ++ ":[[[0,0]]],"
     ++ IntDoc.q "running_means" ++ ":[[[5,6]]],"
     ++ IntDoc.q "running_vars" ++ ":[[[7,8]]]").

Definition json_load (text : string) : json_load_result IntDoc.number :=
  if String.eqb text full_text
  then Loaded (IntDoc.document "2.0-hinge" IntDoc.full_network)
  else if String.eqb text zero_row_text
  then Loaded (IntDoc.document "2.0-hinge" zero_row_network)
  else IntDoc.json_load text.

Definition main (arg_input : option string) (fs : filesystem) : run :=
  main repr_int json_load IntDoc.output_path arg_input fs.

(** A 3x5 matrix followed by a 4x2 matrix: the inner dimensions disagree. *)
Definition mismatched : list (matrix IntDoc.number) :=
  [ IntDoc.layer1; [ [1; 0]; [0; 1]; [1; 1]; [2; 0] ]%Z ].

(** A file system with [./weights.json] and an older output file. *)
Definition with_old_output (text : string) : filesystem :=
  fun path =>
    if String.eqb path "./weights.json" then Some text
    else if String.eqb path IntDoc.output_path then Some "return {}"
    else None.

End IntRun.

(** ** Lists, strings and loops *)

Section Helpers.

Lemma fold_left_append (A B : Type) (f : A -> B) (xs : list A) (acc : list B) :
  fold_left (fun acc x => append acc (f x)) xs acc = (acc ++ map f xs)%list.
Proof.
  revert acc; induction xs as [|x xs IH]; intros acc; simpl.
  - now rewrite app_nil_r.
  - rewrite IH. unfold append. now rewrite <- app_assoc.
Qed.

Lemma for_each_ext (A S : Type) (xs : list A) (f g : S -> A -> result S) :
  (forall acc x, In x xs -> f acc x = g acc x) ->
  forall acc, for_each xs acc f = for_each xs acc g.
Proof.
  induction xs as [|x xs IH]; intros Hfg acc; simpl; [reflexivity|].
  rewrite (Hfg acc x (or_introl eq_refl)).
  destruct (g acc x) as [acc'|e]; simpl; [|reflexivity].
  apply IH. intros; apply Hfg; now right.
Qed.

Lemma append_assoc_string (a b c : string) : (a ++ b) ++ c = a ++ (b ++ c).
Proof. induction a as [|x a IH]; simpl; [reflexivity|now rewrite IH]. Qed.

Lemma append_empty_r (a : string) : a ++ "" = a.
Proof. induction a as [|x a IH]; simpl; [reflexivity|now rewrite IH]. Qed.

Lemma split_on_single (c : ascii) (s : string) :
  mentions c s = false -> split_on c s = [s].
Proof.
  induction s as [|a s IH]; simpl; [reflexivity|].
  destruct (Ascii.eqb a c); simpl; [discriminate|].
  intros H. now rewrite (IH H).
Qed.

Lemma split_on_app (c : ascii) (s t : string) :
  mentions c s = false ->
  split_on c (s ++ String c t) = s :: split_on c t.
Proof.
  induction s as [|a s IH]; simpl.
  - intros _. now rewrite Ascii.eqb_refl.
  - destruct (Ascii.eqb a c); simpl; [discriminate|].
    intros H. now rewrite (IH H).
Qed.

Lemma split_lines_join (ls : list string) :
  ls <> [] ->
  forallb single_line ls = true ->
  split_lines (join nl ls) = ls.
Proof.
  unfold split_lines, single_line, nl.
  induction ls as [|l ls IH]; intros Hne Hall; [congruence|].
  simpl in Hall. apply andb_true_iff in Hall as [Hl Hls].
  apply negb_true_iff in Hl.
  destruct ls as [|l' ls].
  - simpl. now apply split_on_single.
  - change (join (String "010"%char "") (l :: l' :: ls))
      with (l ++ String "010"%char (join (String "010"%char "") (l' :: ls))).
    rewrite split_on_app by assumption.
    f_equal. apply IH; [discriminate|assumption].
Qed.

Lemma mentions_app (c : ascii) (s t : string) :
  mentions c (s ++ t) = mentions c s || mentions c t.
Proof.
  induction s as [|a s IH]; simpl; [reflexivity|].
  now rewrite IH, orb_assoc.
Qed.

Lemma single_line_app (s t : string) :
  single_line (s ++ t) = single_line s && single_line t.
Proof. unfold single_line. now rewrite mentions_app, negb_orb. Qed.

Lemma single_line_indent (n : nat) : single_line (repeat_str "  " n) = true.
Proof. induction n as [|n IH]; [reflexivity|]. simpl. exact IH. Qed.

Lemma repeat_str_succ (s : string) (n : nat) :
  repeat_str s (n + 1) = repeat_str s n ++ s.
Proof.
  induction n as [|n IH]; simpl.
  - apply append_empty_r.
  - now rewrite IH, append_assoc_string.
Qed.

End Helpers.

(** ** Architecture inference *)

Section Architecture.

Variable number : Type.

Lemma columns_loop_ok (weights : list (matrix number)) :
  Forall (fun layer => layer <> []) weights ->
  forall arch,
    for_each weights arch
      (fun arch layer => r0 <- index layer 0 ;; Ok (append arch (List.length r0)))
    = Ok (arch ++ map (@column_count number) weights)%list.
Proof.
  induction 1 as [|layer rest Hrow _ IH]; intros arch; simpl.
  - now rewrite app_nil_r.
  - destruct layer as [|r0 rows]; [congruence|].
    simpl.
    rewrite IH. unfold append, column_count; simpl.
    now rewrite <- app_assoc.
Qed.

Lemma columns_loop_zero_row (weights : list (matrix number)) :
  In [] weights ->
  forall arch,
    for_each weights arch
      (fun arch layer => r0 <- index layer 0 ;; Ok (append arch (List.length r0)))
    = Raise (IndexError "list index out of range").
Proof.
  induction weights as [|layer rest IH]; intros Hin arch; [contradiction|].
  simpl. destruct layer as [|r0 rows].
  - reflexivity.
  - simpl. apply IH.
    destruct Hin as [Heq|Hin]; [discriminate|assumption].
Qed.

(** C1.  On a non-empty list of weight matrices, each with a first row (the
    data model's non-empty matrices), [infer_architecture] returns the row
    count of the first matrix followed by the column count of every matrix
    in order.  The result has one more element than there are matrices,
    and when the first matrix has 3 rows and the column counts are 5 and 2
    it is [3; 5; 2]. *)
Theorem infer_architecture_rows_then_columns (weights : list (matrix number)) :
  weights <> [] ->
  Forall (fun layer => layer <> []) weights ->
  infer_architecture weights
  = Ok (row_count (hd [] weights) :: map column_count weights)
  /\ (forall arch,
         infer_architecture weights = Ok arch ->
         List.length arch = List.length weights + 1)
  /\ (row_count (hd [] weights) = 3 ->
      map column_count weights = [5; 2] ->
      infer_architecture weights = Ok [3; 5; 2]).
Proof.
  intros Hne Hrows.
  assert (Hres : infer_architecture weights
                 = Ok (row_count (hd [] weights) :: map column_count weights)).
  { destruct weights as [|first rest]; [congruence|].
    unfold infer_architecture.
    cbn [is_empty index nth_error bind hd].
    exact (columns_loop_ok Hrows [row_count first]). }
  split; [exact Hres|split].
  - intros arch Harch. rewrite Hres in Harch. injection Harch as <-.
    simpl. rewrite length_map. lia.
  - intros H3 H52. now rewrite Hres, H3, H52.
Qed.

(** C9.  The first-row lookup of [infer_architecture] is unguarded.  When
    the list is non-empty and every matrix has at least one row the
    function returns an architecture; when the list holds a matrix with no
    rows it raises the index error of the lookup, not the [ValueError]
    that reports an empty list. *)
Theorem infer_architecture_first_row_lookup (weights : list (matrix number)) :
  (weights <> [] ->
   Forall (fun layer => layer <> []) weights ->
   exists arch, infer_architecture weights = Ok arch)
  /\ (In [] weights ->
      infer_architecture weights = Raise (IndexError "list index out of range")
      /\ forall msg, infer_architecture weights <> Raise (ValueError msg)).
Proof.
  split.
  - intros Hne Hrows.
    destruct weights as [|first rest]; [congruence|].
    eexists. unfold infer_architecture.
    cbn [is_empty index nth_error bind].
    exact (columns_loop_ok Hrows [List.length first]).
  - intros Hin.
    assert (Hres : infer_architecture weights
                   = Raise (IndexError "list index out of range")).
    { destruct weights as [|first rest]; [contradiction|].
      unfold infer_architecture.
      cbn [is_empty index nth_error bind].
      exact (columns_loop_zero_row _ Hin [List.length first]). }
    split; [exact Hres|].
    intros msg. rewrite Hres. discriminate.
Qed.

End Architecture.

(** C1 on a 3x5 matrix followed by a 5x2 matrix. *)
Lemma infer_architecture_rows_then_columns_witness :
  [IntDoc.layer1; IntDoc.layer2] <> []
  /\ Forall (fun layer : matrix IntDoc.number => layer <> [])
            [IntDoc.layer1; IntDoc.layer2]
  /\ infer_architecture [IntDoc.layer1; IntDoc.layer2] = Ok [3; 5; 2].
Proof.
  assert (Hne : [IntDoc.layer1; IntDoc.layer2] <> []) by discriminate.
  assert (Hrows : Forall (fun layer : matrix IntDoc.number => layer <> [])
                         [IntDoc.layer1; IntDoc.layer2]).
  { repeat constructor; discriminate. }
  split; [exact Hne|split; [exact Hrows|]].
  exact (proj1 (infer_architecture_rows_then_columns Hne Hrows)).
Defined.

(** C9 on a one-layer list, and on a list whose second matrix has no rows. *)
Lemma infer_architecture_first_row_lookup_witness :
  (exists arch, infer_architecture [IntDoc.layer1] = Ok arch)
  /\ In [] [IntDoc.layer1; []]
  /\ infer_architecture [IntDoc.layer1; []]
     = Raise (IndexError "list index out of range").
Proof.
  split; [|split].
  - apply (proj1 (infer_architecture_first_row_lookup [IntDoc.layer1])).
    + discriminate.
    + repeat constructor; discriminate.
  - right; left; reflexivity.
  - apply (proj2 (infer_architecture_first_row_lookup [IntDoc.layer1; []])).
    right; left; reflexivity.
Defined.

(** ** The formatter *)

Section Formatter.

Variable number : Type.
Variable repr : number -> string.

Lemma format_array_block (values : list number) (indent_level : nat) :
  List.length values <> 1 ->
  format_array repr values indent_level = join nl (block_lines repr values indent_level).
Proof.
  intros Hlen. unfold format_array, block_lines, format_number.
  destruct values as [|v [|v' rest]]; [| simpl in Hlen; lia |];
    rewrite (fold_left_append (value_line repr indent_level)); reflexivity.
Qed.

Lemma block_lines_single (values : list number) (indent_level : nat) :
  forallb (fun v => single_line (repr v)) values = true ->
  forallb single_line (block_lines repr values indent_level) = true.
Proof.
  intros Hall. unfold block_lines.
  cbn [forallb]. rewrite forallb_app. cbn [forallb].
  rewrite single_line_app, single_line_indent.
  replace (single_line "{") with true by reflexivity.
  replace (single_line "}") with true by reflexivity.
  rewrite andb_true_r. cbn [andb].
  rewrite forallb_forall in *. intros l Hl.
  apply in_map_iff in Hl as [v [<- Hv]].
  unfold value_line.
  rewrite !single_line_app, single_line_indent, (Hall v Hv). reflexivity.
Qed.

Lemma format_array_block_split (values : list number) (indent_level : nat) :
  List.length values <> 1 ->
  forallb (fun v => single_line (repr v)) values = true ->
  split_lines (format_array repr values indent_level)
  = block_lines repr values indent_level.
Proof.
  intros Hlen Hall. rewrite format_array_block by assumption.
  apply split_lines_join.
  - unfold block_lines; discriminate.
  - now apply block_lines_single.
Qed.

Lemma format_array_one_split (v : number) (indent_level : nat) :
  single_line (repr v) = true ->
  split_lines (format_array repr [v] indent_level) = ["{ " ++ repr v ++ " }"].
Proof.
  intros Hv. unfold format_array, format_number, split_lines.
  apply split_on_single. apply negb_true_iff.
  change (single_line ("{ " ++ repr v ++ " }") = true).
  now rewrite !single_line_app, Hv.
Qed.

(** C3.  An array of one value is rendered as [{ v }], which is one line.
    An array of two or more values is rendered as a block: an opening
    brace, then exactly one line per value, each made of the indentation,
    the value and a comma, then the closing brace; the value lines are
    indented by one two-space unit more than the closing brace, which is at
    the level of the enclosing scope.  Lines are counted on values whose
    literal holds no line break. *)
Theorem format_array_one_line_or_block (values : list number) (indent_level : nat) :
  forallb (fun v => single_line (repr v)) values = true ->
  (forall v, values = [v] ->
     format_array repr values indent_level = "{ " ++ repr v ++ " }"
     /\ split_lines (format_array repr values indent_level)
        = ["{ " ++ repr v ++ " }"])
  /\ (2 <= List.length values ->
      format_array repr values indent_level
      = join nl ("{" :: List.app (map (value_line repr indent_level) values)
                                 [repeat_str "  " indent_level ++ "}"])
      /\ split_lines (format_array repr values indent_level)
         = "{" :: List.app (map (value_line repr indent_level) values)
                           [repeat_str "  " indent_level ++ "}"]
      /\ List.length (split_lines (format_array repr values indent_level))
         = List.length values + 2)
  /\ (forall v,
        value_line repr indent_level v
        = (repeat_str "  " indent_level ++ "  ") ++ repr v ++ ",").
Proof.
  intros Hall. split; [|split].
  - intros v ->. split; [reflexivity|].
    apply format_array_one_split.
    simpl in Hall. now rewrite andb_true_r in Hall.
  - intros Hlen.
    assert (Hne : List.length values <> 1) by lia.
    split; [|split].
    + exact (@format_array_block values indent_level Hne).
    + exact (@format_array_block_split values indent_level Hne Hall).
    + rewrite (@format_array_block_split values indent_level Hne Hall).
      unfold block_lines. simpl.
      rewrite length_app, length_map. simpl. lia.
  - intros v. unfold value_line. now rewrite repeat_str_succ.
Qed.

(** C10.  The empty array takes the multi-line path: its rendering is the
    opening brace and the closing brace on two lines with no value line
    between them.  For any array, the rendering is the one-line form
    exactly when the array has one element. *)
Theorem format_array_empty_is_block (values : list number) (indent_level : nat) :
  forallb (fun v => single_line (repr v)) values = true ->
  format_array repr [] indent_level
  = "{" ++ nl ++ repeat_str "  " indent_level ++ "}"
  /\ split_lines (format_array repr [] indent_level)
     = ["{"; repeat_str "  " indent_level ++ "}"]
  /\ (List.length (split_lines (format_array repr values indent_level)) = 1
      <-> List.length values = 1)
  /\ ((exists v, format_array repr values indent_level = "{ " ++ repr v ++ " }")
      <-> List.length values = 1).
Proof.
  intros Hall. split; [reflexivity|split; [|split]].
  - apply (@format_array_block_split [] indent_level); [discriminate|reflexivity].
  - destruct (Nat.eq_dec (List.length values) 1) as [H1|Hne].
    + destruct values as [|v [|v' rest]]; try discriminate.
      rewrite format_array_one_split; [tauto|].
      simpl in Hall. now rewrite andb_true_r in Hall.
    + rewrite (@format_array_block_split values indent_level Hne Hall).
      unfold block_lines. simpl. rewrite length_app, length_map. simpl.
      split; intros; lia.
  - split.
    + intros [v Hv].
      destruct (Nat.eq_dec (List.length values) 1) as [H1|Hne]; [assumption|].
      exfalso.
      assert (Hs : split_lines (format_array repr values indent_level)
                   = block_lines repr values indent_level)
        by exact (@format_array_block_split values indent_level Hne Hall).
      rewrite Hv in Hs. unfold block_lines, split_lines in Hs.
      cbn in Hs. destruct (split_on "010" _); discriminate.
    + intros H1. destruct values as [|v [|v' rest]]; try discriminate.
      now exists v.
Qed.

End Formatter.

(** C3 on the ints 1, -2, 30 at depth 1, and on the single int 7. *)
Lemma format_array_one_line_or_block_witness :
  forallb (fun v => single_line (repr_int v)) [1; -2; 30]%Z = true
  /\ split_lines (format_array repr_int [1; -2; 30]%Z 1)
     = ["{"; "    1,"; "    -2,"; "    30,"; "  }"]
  /\ format_array repr_int [7]%Z 3 = "{ 7 }".
Proof.
  split; [reflexivity|split].
  - refine (proj1 (proj2 (proj1 (proj2
      (@format_array_one_line_or_block Z repr_int [1; -2; 30]%Z 1 eq_refl)) _))).
    simpl; lia.
  - exact (proj1 (proj1
      (@format_array_one_line_or_block Z repr_int [7]%Z 3 eq_refl) 7%Z eq_refl)).
Defined.

(** C10 on the empty array and on the ints 4, 5 at depth 2. *)
Lemma format_array_empty_is_block_witness :
  forallb (fun v => single_line (repr_int v)) [4; 5]%Z = true
  /\ split_lines (format_array repr_int [] 2) = ["{"; "    }"]
  /\ (List.length (split_lines (format_array repr_int [4; 5]%Z 2)) = 1
      <-> List.length [4; 5]%Z = 1).
Proof.
  split; [reflexivity|split].
  - exact (proj1 (proj2
      (@format_array_empty_is_block Z repr_int [4; 5]%Z 2 eq_refl))).
  - exact (proj1 (proj2 (proj2
      (@format_array_empty_is_block Z repr_int [4; 5]%Z 2 eq_refl)))).
Defined.

(** ** Dicts *)

Section Dicts.

Variable V : Type.

Lemma contains_get (d : dict V) (key : string) :
  contains d key = true <-> exists v, get d key = Some v.
Proof.
  unfold contains. induction d as [|[k v] rest IH]; simpl.
  - split; [discriminate|intros [v Hv]; discriminate].
  - destruct (String.eqb key k); simpl; [|exact IH].
    split; [intros _; now exists v|reflexivity].
Qed.

(** Reordering the items of a dict does not change what its keys hold. *)
Lemma get_permutation (d1 d2 : dict V) :
  Permutation d1 d2 ->
  NoDup (map fst d1) ->
  forall key, get d1 key = get d2 key.
Proof.
  induction 1 as [| [k v] d1 d2 Hp IH | [k1 v1] [k2 v2] d | d1 d2 d3 H12 IH12 H23 IH23];
    intros Hnd key.
  - reflexivity.
  - simpl. inversion Hnd; subst. now rewrite IH.
  - simpl. inversion Hnd as [|? ? Hnin _]; subst.
    destruct (String.eqb_spec key k1) as [E1|_],
             (String.eqb_spec key k2) as [E2|_]; try reflexivity.
    exfalso; apply Hnin; left; simpl; congruence.
  - rewrite IH12 by assumption. apply IH23.
    eapply Permutation_NoDup; [|exact Hnd]. now apply Permutation_map.
Qed.

End Dicts.

(** ** The emitter *)

Section Emitter.

Variable number : Type.
Variable repr : number -> string.

Lemma get_default_version_labels (version : string) :
  get_default version_labels version version
  = if String.eqb version "2.0-hinge" then "v2.0 pairwise hinge loss" else version.
Proof.
  unfold get_default, version_labels. simpl.
  now destruct (String.eqb version "2.0-hinge").
Qed.

Lemma generate_lua_lines (version : string) (network : network_t number)
      (architecture : list nat) (f1 f2 f3 f4 f5 f6 : field_data number) :
  get network "running_vars" = Some f1 ->
  get network "running_means" = Some f2 ->
  get network "weights" = Some f3 ->
  get network "betas" = Some f4 ->
  get network "gammas" = Some f5 ->
  get network "biases" = Some f6 ->
  generate_lua repr version network architecture
  = Ok (join nl
          (List.app
             (header_lines (join " -> " (map str_nat architecture))
                           (get_default version_labels version version)
                           version)
             (List.app
                [ field_line repr "running_vars" f1;
                  field_line repr "running_means" f2;
                  field_line repr "weights" f3;
                  field_line repr "betas" f4;
                  field_line repr "gammas" f5;
                  field_line repr "biases" f6 ]
                footer_lines))).
Proof.
  intros H1 H2 H3 H4 H5 H6.
  unfold generate_lua, NETWORK_KEY_ORDER, getitem.
  cbn [for_each]. rewrite H1. cbn [bind].
  rewrite H2. cbn [bind]. rewrite H3. cbn [bind].
  rewrite H4. cbn [bind]. rewrite H5. cbn [bind].
  rewrite H6. cbn [bind]. reflexivity.
Qed.

Lemma generate_lua_same_fields (version : string) (n1 n2 : network_t number)
      (architecture : list nat) :
  (forall key, In key NETWORK_KEY_ORDER -> get n1 key = get n2 key) ->
  generate_lua repr version n1 architecture
  = generate_lua repr version n2 architecture.
Proof.
  intros Hsame. unfold generate_lua. cbv zeta.
  match goal with
  | |- bind (for_each ?ks ?acc ?f) _ = bind (for_each _ _ ?g) _ =>
      rewrite (@for_each_ext _ _ ks f g)
  end; [reflexivity|].
  intros acc key Hkey. unfold getitem. now rewrite (Hsame key Hkey).
Qed.

Lemma all_keys_present (network : network_t number) :
  (forall key, In key NETWORK_KEY_ORDER -> contains network key = true) ->
  exists f1 f2 f3 f4 f5 f6,
    get network "running_vars" = Some f1
    /\ get network "running_means" = Some f2
    /\ get network "weights" = Some f3
    /\ get network "betas" = Some f4
    /\ get network "gammas" = Some f5
    /\ get network "biases" = Some f6.
Proof.
  intros Hall.
  assert (Hk : forall key, In key NETWORK_KEY_ORDER ->
                           exists v, get network key = Some v).
  { intros key Hkey. apply contains_get. now apply Hall. }
  destruct (Hk "running_vars") as [f1 H1]; [simpl; tauto|].
  destruct (Hk "running_means") as [f2 H2]; [simpl; tauto|].
  destruct (Hk "weights") as [f3 H3]; [simpl; tauto|].
  destruct (Hk "betas") as [f4 H4]; [simpl; tauto|].
  destruct (Hk "gammas") as [f5 H5]; [simpl; tauto|].
  destruct (Hk "biases") as [f6 H6]; [simpl; tauto|].
  now exists f1, f2, f3, f4, f5, f6.
Qed.

(** C6.  The generated text is a function of the version string, the six
    network fields and the architecture alone: two networks that hold the
    same six fields give the same text, character for character, whatever
    else they hold and in whatever order. *)
Theorem generate_lua_deterministic
        (version1 version2 : string) (network1 network2 : network_t number)
        (architecture1 architecture2 : list nat) :
  version1 = version2 ->
  (forall key, In key NETWORK_KEY_ORDER -> get network1 key = get network2 key) ->
  architecture1 = architecture2 ->
  generate_lua repr version1 network1 architecture1
  = generate_lua repr version2 network2 architecture2.
Proof.
  intros -> Hsame ->. now apply generate_lua_same_fields.
Qed.

(** C7.  With the six fields present, [generate_lua] succeeds for every
    version string.  The training-format line of the header carries the
    label of the known-versions mapping when the version is in it, and the
    version string itself otherwise; the version field of the table carries
    the version string as it is. *)
Theorem generate_lua_version_label (version : string) (network : network_t number)
        (architecture : list nat) :
  (forall key, In key NETWORK_KEY_ORDER -> contains network key = true) ->
  exists arch_str label fields,
    generate_lua repr version network architecture
    = Ok (join nl
            (List.app
               [ "--- Default neural network weights for neural-open";
                 "--- Auto-generated from trained weights - DO NOT EDIT MANUALLY";
                 "---";
                 "--- These weights are used as defaults when no user weights exist.";
                 "--- They represent a pre-trained network that provides good initial file ranking.";
                 "---";
                 "--- Network architecture: " ++ arch_str;
                 "--- Training format: " ++ label;
                 "";
                 "return {";
                 "  version = " ++ dquote ++ version ++ dquote ++ ",";
                 "  network = {" ]
               (List.app fields footer_lines)))
    /\ (forall known, get version_labels version = Some known -> label = known)
    /\ (get version_labels version = None -> label = version)
    /\ (version = "2.0-hinge" -> label = "v2.0 pairwise hinge loss")
    /\ (version <> "2.0-hinge" -> label = version).
Proof.
  intros Hall.
  destruct (all_keys_present _ Hall)
    as (f1 & f2 & f3 & f4 & f5 & f6 & H1 & H2 & H3 & H4 & H5 & H6).
  eexists _, (get_default version_labels version version), _.
  split; [apply generate_lua_lines; eassumption|].
  split; [|split; [|split]].
  - unfold get_default. now intros known ->.
  - unfold get_default. now intros ->.
  - intros ->. reflexivity.
  - intros Hne. rewrite get_default_version_labels.
    now destruct (String.eqb_spec version "2.0-hinge").
Qed.

(** C8.  The six fields are emitted in the order of [NETWORK_KEY_ORDER]
    (running_vars, running_means, weights, betas, gammas, biases), each on
    a line labelled with its key, and the items of the input dict may come
    in any order: a reordered network gives the same text. *)
Theorem generate_lua_canonical_field_order
        (version : string) (network : network_t number) (architecture : list nat)
        (f1 f2 f3 f4 f5 f6 : field_data number) :
  get network "running_vars" = Some f1 ->
  get network "running_means" = Some f2 ->
  get network "weights" = Some f3 ->
  get network "betas" = Some f4 ->
  get network "gammas" = Some f5 ->
  get network "biases" = Some f6 ->
  generate_lua repr version network architecture
  = Ok (join nl
          (List.app
             (header_lines (join " -> " (map str_nat architecture))
                           (get_default version_labels version version)
                           version)
             (List.app
                [ "    [" ++ dquote ++ "running_vars" ++ dquote ++ "] = "
                  ++ format_network_field repr f1 2 ++ ",";
                  "    [" ++ dquote ++ "running_means" ++ dquote ++ "] = "
                  ++ format_network_field repr f2 2 ++ ",";
                  "    [" ++ dquote ++ "weights" ++ dquote ++ "] = "
                  ++ format_network_field repr f3 2 ++ ",";
                  "    [" ++ dquote ++ "betas" ++ dquote ++ "] = "
                  ++ format_network_field repr f4 2 ++ ",";
                  "    [" ++ dquote ++ "gammas" ++ dquote ++ "] = "
                  ++ format_network_field repr f5 2 ++ ",";
                  "    [" ++ dquote ++ "biases" ++ dquote ++ "] = "
                  ++ format_network_field repr f6 2 ++ "," ]
                footer_lines)))
  /\ (forall network',
         Permutation network network' ->
         NoDup (map fst network) ->
         generate_lua repr version network' architecture
         = generate_lua repr version network architecture).
Proof.
  intros H1 H2 H3 H4 H5 H6. split.
  - apply generate_lua_lines; assumption.
  - intros network' Hperm Hnd. apply generate_lua_same_fields.
    intros key _. symmetry. now apply get_permutation.
Qed.

End Emitter.

(** ** The program *)

Section Program.

Variable number : Type.
Variable repr : number -> string.
Variable json_load : string -> json_load_result number.
Variable output_path : string.

Lemma find_first (A : Type) (p : A -> bool) (l : list A) (x : A) :
  find p l = Some x ->
  exists before after,
    l = (before ++ x :: after)%list
    /\ (forall y, In y before -> p y = false)
    /\ p x = true.
Proof.
  induction l as [|a l IH]; simpl; [discriminate|].
  destruct (p a) eqn:Ea.
  - intros [= ->]. exists [], l. repeat split; [contradiction|assumption].
  - intros Hf. destruct (IH Hf) as (before & after & -> & Hb & Hx).
    exists (a :: before), after. repeat split; [|assumption].
    intros y [<-|Hy]; [assumption|now apply Hb].
Qed.

Lemma main_after_load (arg_input : option string) (fs : filesystem)
      (version : string) (network : network_t number) :
  loads json_load arg_input fs version network ->
  main repr json_load output_path arg_input fs
  = match find (fun key => negb (contains network key)) NETWORK_KEY_ORDER with
    | Some key => die fs (missing_key_message key)
    | None =>
        match (weights <- getitem network "weights" ;;
               architecture <- infer_architecture weights ;;
               lua_content <- generate_lua repr version network architecture ;;
               Ok (architecture, lua_content)) with
        | Raise e => {| stdout := []; stderr := []; term := Uncaught e; files := fs |}
        | Ok (architecture, lua_content) =>
            {| stdout :=
                 [ "Wrote default weights to " ++ output_path;
                   "  Architecture: " ++ join " -> " (map str_nat architecture);
                   "  Version: " ++ version;
                   "  Extracted: " ++ join ", " NETWORK_KEY_ORDER ];
               stderr := [];
               term := Exit 0;
               files := write_file fs output_path lua_content |}
        end
    end.
Proof.
  intros (text & Hfile & Hload). unfold main.
  fold (input_path arg_input). rewrite Hfile, Hload. reflexivity.
Qed.

(** The output file is written on the one path that ends with status 0. *)
Lemma main_writes_on_success_only (arg_input : option string) (fs : filesystem) :
  exit_code (term (main repr json_load output_path arg_input fs)) <> 0%Z ->
  files (main repr json_load output_path arg_input fs) = fs.
Proof.
  unfold main.
  destruct (fs _) as [text|]; [|reflexivity].
  destruct (json_load text) as [e|data]; [reflexivity|].
  destruct (key_nn data) as [nn|]; [|reflexivity].
  destruct (key_nn_nn nn) as [nn_data|]; [|reflexivity].
  destruct (key_version nn_data) as [version|]; [|reflexivity].
  destruct (key_network nn_data) as [network|]; [|reflexivity].
  destruct (find _ _) as [key|]; [reflexivity|].
  destruct (bind _ _) as [[architecture lua_content]|e]; [|reflexivity].
  simpl. congruence.
Qed.

(** X14.  A run reads nothing but the input file: two file systems that agree on
    it give the same messages and the same end, and on success the same
    text in the output file, whatever the output file held before. *)
Lemma main_reads_input_file_only (arg_input : option string) (fs1 fs2 : filesystem) :
  fs1 (input_path arg_input) = fs2 (input_path arg_input) ->
  let r1 := main repr json_load output_path arg_input fs1 in
  let r2 := main repr json_load output_path arg_input fs2 in
  stdout r1 = stdout r2
  /\ stderr r1 = stderr r2
  /\ term r1 = term r2
  /\ (term r1 = Exit 0 -> files r1 output_path = files r2 output_path).
Proof.
  intros Hsame r1 r2. subst r1 r2. unfold main.
  fold (input_path arg_input). rewrite Hsame.
  destruct (fs2 _) as [text|]; [|repeat split; discriminate].
  destruct (json_load text) as [e|data]; [repeat split; discriminate|].
  destruct (key_nn data) as [nn|]; [|repeat split; discriminate].
  destruct (key_nn_nn nn) as [nn_data|]; [|repeat split; discriminate].
  destruct (key_version nn_data) as [version|]; [|repeat split; discriminate].
  destruct (key_network nn_data) as [network|]; [|repeat split; discriminate].
  destruct (find _ _) as [key|]; [repeat split; discriminate|].
  destruct (bind _ _) as [[architecture lua_content]|e];
    [|repeat split; discriminate].
  repeat split. intros _. simpl. unfold write_file.
  now rewrite String.eqb_refl.
Qed.

(** C4.  When the document loads and one of the six network keys is
    absent, the program prints one message to the error stream, exits with
    status 1 and leaves every file as it was.  The message names the first
    key of the canonical order that is absent, hence the absent key itself
    when the others are present.  More generally no run that ends with a
    non-zero status writes the output file. *)
Theorem main_missing_network_key
        (arg_input : option string) (fs : filesystem)
        (version : string) (network : network_t number) (key : string) :
  loads json_load arg_input fs version network ->
  In key NETWORK_KEY_ORDER ->
  contains network key = false ->
  let r := main repr json_load output_path arg_input fs in
  term r = Exit 1
  /\ exit_code (term r) = 1%Z
  /\ stdout r = []
  /\ files r = fs
  /\ (exists before missing after,
         NETWORK_KEY_ORDER = (before ++ missing :: after)%list
         /\ (forall k, In k before -> contains network k = true)
         /\ contains network missing = false
         /\ stderr r
            = ["Error: Missing network key '" ++ missing ++ "' in weights.json"])
  /\ ((forall k, In k NETWORK_KEY_ORDER -> k <> key -> contains network k = true) ->
      stderr r = ["Error: Missing network key '" ++ key ++ "' in weights.json"])
  /\ (forall arg_input' fs',
         exit_code (term (main repr json_load output_path arg_input' fs')) <> 0%Z ->
         files (main repr json_load output_path arg_input' fs') = fs').
Proof.
  intros Hload Hkey Habsent r. subst r.
  rewrite (main_after_load Hload).
  destruct (find (fun k => negb (contains network k)) NETWORK_KEY_ORDER)
    as [missing|] eqn:Hfind.
  - destruct (find_first _ _ Hfind) as (before & after & Hsplit & Hbefore & Hmissing).
    apply negb_true_iff in Hmissing.
    repeat (split; [reflexivity|]).
    split; [|split].
    + exists before, missing, after. repeat split; try assumption.
      intros k Hk. apply negb_false_iff. now apply Hbefore.
    + intros Hothers. simpl. unfold missing_key_message.
      destruct (String.eqb_spec missing key) as [->|Hne]; [reflexivity|].
      apply find_some in Hfind as [Hin _].
      rewrite (Hothers missing Hin Hne) in Hmissing. discriminate.
    + apply main_writes_on_success_only.
  - exfalso.
    pose proof (find_none _ _ Hfind key Hkey) as Hk.
    cbv beta in Hk. rewrite Habsent in Hk. discriminate.
Qed.

(** C5.  When the document loads and [weights] is the empty list, the
    program fails and leaves every file as it was.  With the six keys
    present the failure is the [ValueError] that [infer_architecture]
    raises on an empty list, which nothing catches. *)
Theorem main_empty_weights
        (arg_input : option string) (fs : filesystem)
        (version : string) (network : network_t number) :
  loads json_load arg_input fs version network ->
  get network "weights" = Some [] ->
  let r := main repr json_load output_path arg_input fs in
  infer_architecture (@nil (matrix number))
  = Raise (ValueError "No weight matrices found")
  /\ files r = fs
  /\ exit_code (term r) = 1%Z
  /\ ((forall k, In k NETWORK_KEY_ORDER -> contains network k = true) ->
      term r = Uncaught (ValueError "No weight matrices found")
      /\ stdout r = []).
Proof.
  intros Hload Hweights r. subst r.
  split; [reflexivity|].
  rewrite (main_after_load Hload).
  destruct (find (fun k => negb (contains network k)) NETWORK_KEY_ORDER)
    as [missing|] eqn:Hfind.
  - repeat (split; [reflexivity|]).
    intros Hall. apply find_some in Hfind as [Hin Hmissing].
    cbv beta in Hmissing. rewrite (Hall missing Hin) in Hmissing. discriminate.
  - unfold getitem. rewrite Hweights. simpl.
    repeat split; reflexivity.
Qed.

End Program.

(** C4 on a document whose network lacks [biases] and holds the other five
    keys. *)
Lemma main_missing_network_key_witness :
  loads IntDoc.json_load None (IntDoc.only_weights_json IntDoc.no_biases_text)
        "2.0-hinge" IntDoc.no_biases_network
  /\ In "biases" NETWORK_KEY_ORDER
  /\ contains IntDoc.no_biases_network "biases" = false
  /\ term (IntDoc.main None (IntDoc.only_weights_json IntDoc.no_biases_text))
     = Exit 1
  /\ files (IntDoc.main None (IntDoc.only_weights_json IntDoc.no_biases_text))
     = IntDoc.only_weights_json IntDoc.no_biases_text
  /\ stderr (IntDoc.main None (IntDoc.only_weights_json IntDoc.no_biases_text))
     = ["Error: Missing network key 'biases' in weights.json"].
Proof.
  assert (Hload : loads IntDoc.json_load None
                        (IntDoc.only_weights_json IntDoc.no_biases_text)
                        "2.0-hinge" IntDoc.no_biases_network).
  { exists IntDoc.no_biases_text. split; reflexivity. }
  assert (Hkey : In "biases" NETWORK_KEY_ORDER) by (simpl; tauto).
  assert (Habsent : contains IntDoc.no_biases_network "biases" = false)
    by reflexivity.
  destruct (@main_missing_network_key
              IntDoc.number repr_int IntDoc.json_load IntDoc.output_path
              None (IntDoc.only_weights_json IntDoc.no_biases_text)
              "2.0-hinge" IntDoc.no_biases_network "biases"
              Hload Hkey Habsent)
    as (Hterm & _ & _ & Hfiles & _ & Hnames & _).
  repeat (split; [assumption|]).
  apply Hnames.
  intros k Hk Hne. simpl in Hk.
  repeat (destruct Hk as [<-|Hk]; [try reflexivity; congruence|]).
  contradiction.
Defined.

(** C5 on a document whose network holds the six keys and an empty
    [weights] list. *)
Lemma main_empty_weights_witness :
  loads IntDoc.json_load None (IntDoc.only_weights_json IntDoc.empty_weights_text)
        "2.0-hinge" IntDoc.empty_weights_network
  /\ get IntDoc.empty_weights_network "weights" = Some []
  /\ term (IntDoc.main None (IntDoc.only_weights_json IntDoc.empty_weights_text))
     = Uncaught (ValueError "No weight matrices found")
  /\ files (IntDoc.main None (IntDoc.only_weights_json IntDoc.empty_weights_text))
     = IntDoc.only_weights_json IntDoc.empty_weights_text.
Proof.
  assert (Hload : loads IntDoc.json_load None
                        (IntDoc.only_weights_json IntDoc.empty_weights_text)
                        "2.0-hinge" IntDoc.empty_weights_network).
  { exists IntDoc.empty_weights_text. split; reflexivity. }
  assert (Hweights : get IntDoc.empty_weights_network "weights" = Some [])
    by reflexivity.
  destruct (@main_empty_weights
              IntDoc.number repr_int IntDoc.json_load IntDoc.output_path
              None (IntDoc.only_weights_json IntDoc.empty_weights_text)
              "2.0-hinge" IntDoc.empty_weights_network Hload Hweights)
    as (_ & Hfiles & _ & Hraise).
  repeat (split; [assumption|]).
  split; [|exact Hfiles].
  apply Hraise.
  intros k Hk. simpl in Hk.
  repeat (destruct Hk as [<-|Hk]; [reflexivity|]).
  contradiction.
Defined.

(** C6 on a network and the same fields reordered with one more key. *)
Lemma generate_lua_deterministic_witness :
  (forall key, In key NETWORK_KEY_ORDER ->
               get IntDoc.full_network key = get IntDoc.extended_network key)
  /\ generate_lua repr_int "2.0-hinge" IntDoc.full_network [2; 2]
     = generate_lua repr_int "2.0-hinge" IntDoc.extended_network [2; 2].
Proof.
  assert (Hsame : forall key, In key NETWORK_KEY_ORDER ->
                    get IntDoc.full_network key = get IntDoc.extended_network key).
  { intros key Hk. simpl in Hk.
    repeat (destruct Hk as [<-|Hk]; [reflexivity|]).
    contradiction. }
  split; [exact Hsame|].
  exact (@generate_lua_deterministic
           IntDoc.number repr_int "2.0-hinge" "2.0-hinge"
           IntDoc.full_network IntDoc.extended_network [2; 2] [2; 2]
           eq_refl Hsame eq_refl).
Defined.

(** C7 on a version string that the mapping does not know. *)
Lemma generate_lua_version_label_witness :
  (forall key, In key NETWORK_KEY_ORDER ->
               contains IntDoc.full_network key = true)
  /\ exists arch_str label fields,
       generate_lua repr_int "3.0-listwise" IntDoc.full_network [2; 2]
       = Ok (join nl
               (List.app
                  (header_lines arch_str label "3.0-listwise")
                  (List.app fields footer_lines)))
       /\ label = "3.0-listwise".
Proof.
  assert (Hall : forall key, In key NETWORK_KEY_ORDER ->
                             contains IntDoc.full_network key = true).
  { intros key Hk. simpl in Hk.
    repeat (destruct Hk as [<-|Hk]; [reflexivity|]).
    contradiction. }
  split; [exact Hall|].
  destruct (@generate_lua_version_label
              IntDoc.number repr_int "3.0-listwise" IntDoc.full_network [2; 2] Hall)
    as (arch_str & label & fields & Hout & _ & _ & _ & Hunknown).
  exists arch_str, label, fields. split; [exact Hout|].
  apply Hunknown. discriminate.
Defined.

(** C8 on a network whose items are not in the canonical order, and on a
    reordering of it. *)
Lemma generate_lua_canonical_field_order_witness :
  get IntDoc.full_network "running_vars" = Some IntDoc.vars1
  /\ get IntDoc.full_network "biases" = Some IntDoc.biases1
  /\ Permutation IntDoc.full_network IntDoc.reordered_network
  /\ NoDup (map fst IntDoc.full_network)
  /\ generate_lua repr_int "2.0-hinge" IntDoc.reordered_network [2; 2]
     = generate_lua repr_int "2.0-hinge" IntDoc.full_network [2; 2].
Proof.
  assert (Hperm : Permutation IntDoc.full_network IntDoc.reordered_network).
  { unfold IntDoc.full_network, IntDoc.reordered_network.
    apply Permutation_cons_app with
      (l1 := [("running_vars", IntDoc.vars1); ("betas", IntDoc.betas1)]).
    apply Permutation_cons_app with
      (l1 := [("running_vars", IntDoc.vars1); ("betas", IntDoc.betas1);
              ("running_means", IntDoc.means1)]).
    apply Permutation_cons_app with
      (l1 := [("running_vars", IntDoc.vars1); ("betas", IntDoc.betas1);
              ("running_means", IntDoc.means1)]).
    apply Permutation_cons_app with
      (l1 := [("running_vars", IntDoc.vars1)]).
    apply perm_swap. }
  assert (Hnd : NoDup (map fst IntDoc.full_network)).
  { simpl. repeat constructor; simpl; intuition discriminate. }
  repeat (split; [first [reflexivity | assumption]|]).
  exact (proj2 (@generate_lua_canonical_field_order
                  IntDoc.number repr_int "2.0-hinge" IntDoc.full_network [2; 2]
                  IntDoc.vars1 IntDoc.means1 IntDoc.weights1
                  IntDoc.betas1 IntDoc.gammas1 IntDoc.biases1
                  eq_refl eq_refl eq_refl eq_refl eq_refl eq_refl)
               IntDoc.reordered_network Hperm Hnd).
Defined.

(** ** Further properties: lines, indentation and braces *)

Section Lines.

Lemma split_on_nonempty (c : ascii) (s : string) : split_on c s <> [].
Proof.
  induction s as [|a s IH]; simpl; [discriminate|].
  destruct (Ascii.eqb a c); [discriminate|].
  destruct (split_on c s); discriminate.
Qed.

Lemma split_on_prefix (c : ascii) (p s : string) :
  mentions c p = false ->
  split_on c (p ++ s) = prefix_first p (split_on c s).
Proof.
  induction p as [|a p IH]; simpl.
  - intros _. destruct (split_on c s); reflexivity.
  - destruct (Ascii.eqb a c); simpl; [discriminate|].
    intros Hp. rewrite (IH Hp).
    destruct (split_on c s) as [|l ls] eqn:E; [|reflexivity].
    now destruct (split_on_nonempty c s).
Qed.

Lemma split_on_suffix (c : ascii) (s q : string) :
  mentions c q = false ->
  split_on c (s ++ q) = suffix_last q (split_on c s).
Proof.
  intros Hq. induction s as [|a s IH]; simpl.
  - now apply split_on_single.
  - rewrite IH. destruct (Ascii.eqb a c).
    + destruct (split_on c s) as [|l ls] eqn:E; [|reflexivity].
      now destruct (split_on_nonempty c s).
    + destruct (split_on c s) as [|l [|l' ls]] eqn:E; try reflexivity.
      now destruct (split_on_nonempty c s).
Qed.

Lemma split_on_app_sep (c : ascii) (s t : string) :
  split_on c (s ++ String c t) = (split_on c s ++ split_on c t)%list.
Proof.
  induction s as [|a s IH]; simpl.
  - now rewrite Ascii.eqb_refl.
  - rewrite IH. destruct (Ascii.eqb a c); [reflexivity|].
    destruct (split_on c s) as [|l ls] eqn:E; [|reflexivity].
    now destruct (split_on_nonempty c s).
Qed.

(** Splitting a joined text gives the lines of its parts, in order. *)
Lemma split_lines_join_parts (ls : list string) :
  ls <> [] ->
  split_lines (join nl ls) = List.concat (map split_lines ls).
Proof.
  unfold split_lines, nl.
  induction ls as [|l ls IH]; intros Hne; [congruence|].
  destruct ls as [|l' ls].
  - simpl. now rewrite app_nil_r.
  - change (join (String "010"%char "") (l :: l' :: ls))
      with (l ++ String "010"%char (join (String "010"%char "") (l' :: ls))).
    rewrite split_on_app_sep, IH by discriminate. reflexivity.
Qed.

Lemma split_lines_item (indent_level : nat) (text : string) :
  split_lines (repeat_str "  " (indent_level + 1) ++ text ++ ",")
  = item_lines indent_level text.
Proof.
  unfold split_lines, item_lines.
  rewrite split_on_prefix.
  - now rewrite split_on_suffix.
  - pose proof (single_line_indent (indent_level + 1)) as H.
    unfold single_line in H. now apply negb_true_iff in H.
Qed.

(** The lines of a brace-wrapped block of items. *)
Lemma split_lines_block (A : Type) (render : A -> string) (items : list A)
      (indent_level : nat) :
  split_lines
    (join nl (append
                (fold_left
                   (fun lines x =>
                      append lines
                             (repeat_str "  " (indent_level + 1) ++ render x ++ ","))
                   items ["{"])
                (repeat_str "  " indent_level ++ "}")))
  = "{" :: List.app
             (List.concat (map (fun x => item_lines indent_level (render x)) items))
             [repeat_str "  " indent_level ++ "}"].
Proof.
  rewrite (fold_left_append
             (fun x => repeat_str "  " (indent_level + 1) ++ render x ++ ",")).
  unfold append. rewrite split_lines_join_parts by discriminate.
  simpl. rewrite map_app, concat_app, map_map. simpl.
  f_equal. f_equal.
  - f_equal. apply map_ext. intros x. apply split_lines_item.
  - rewrite app_nil_r. unfold split_lines. apply split_on_single.
    pose proof (single_line_indent indent_level) as H.
    unfold single_line in H. apply negb_true_iff in H.
    now rewrite mentions_app, H.
Qed.

Lemma starts_with_app (p s : string) : starts_with p (p ++ s) = true.
Proof.
  induction p as [|a p IH]; simpl; [reflexivity|].
  now rewrite Ascii.eqb_refl.
Qed.

Lemma starts_with_shorter (p x s : string) :
  starts_with (p ++ x) s = true -> starts_with p s = true.
Proof.
  revert s; induction p as [|a p IH]; intros s; simpl; [reflexivity|].
  destruct s as [|b s]; [discriminate|].
  intros H. apply andb_true_iff in H as [Hab H].
  now rewrite Hab, (IH s H).
Qed.

Lemma starts_with_longer (p s q : string) :
  starts_with p s = true -> starts_with p (s ++ q) = true.
Proof.
  revert s; induction p as [|a p IH]; intros s; simpl; [reflexivity|].
  destruct s as [|b s]; [discriminate|]. simpl.
  intros H. apply andb_true_iff in H as [Hab H].
  now rewrite Hab, (IH s H).
Qed.

Lemma indented_shallower (n : nat) (ls : list string) :
  indented (n + 1) ls = true -> indented n ls = true.
Proof.
  unfold indented. rewrite !forallb_forall. intros H l Hl.
  apply starts_with_shorter with (x := "  ").
  rewrite <- repeat_str_succ. now apply H.
Qed.

Lemma indented_suffix_last (n : nat) (q : string) (ls : list string) :
  indented n ls = true -> indented n (suffix_last q ls) = true.
Proof.
  unfold indented. induction ls as [|l ls IH]; [reflexivity|].
  intros H. simpl in H. apply andb_true_iff in H as [Hl Hls].
  destruct ls as [|l' ls].
  - simpl. now rewrite starts_with_longer.
  - change (suffix_last q (l :: l' :: ls)) with (l :: suffix_last q (l' :: ls)).
    change (starts_with (repeat_str "  " n) l
            && forallb (starts_with (repeat_str "  " n))
                       (suffix_last q (l' :: ls)) = true).
    apply andb_true_iff. split; [exact Hl|exact (IH Hls)].
Qed.

(** An item whose continuation lines are indented to the parent's inner
    depth has all its lines so indented once it is placed in the parent. *)
Lemma item_lines_indented (n : nat) (text : string) :
  indented (n + 1) (tl (split_lines text)) = true ->
  indented (n + 1) (item_lines n text) = true.
Proof.
  unfold item_lines. intros Htl.
  pose proof (@indented_suffix_last (n + 1) "," _ Htl) as Hs.
  destruct (split_lines text) as [|l [|l' ls]]; try reflexivity.
  - simpl. now rewrite starts_with_app.
  - change (suffix_last "," (l :: l' :: ls))
      with (l :: suffix_last "," (l' :: ls)).
    change (starts_with (repeat_str "  " (n + 1)) (repeat_str "  " (n + 1) ++ l)
            && indented (n + 1) (suffix_last "," (l' :: ls)) = true).
    rewrite starts_with_app. exact Hs.
Qed.

Lemma indented_concat (A : Type) (n : nat) (f : A -> list string) (xs : list A) :
  (forall x, In x xs -> indented n (f x) = true) ->
  indented n (List.concat (map f xs)) = true.
Proof.
  unfold indented. induction xs as [|x xs IH]; intros H; [reflexivity|].
  simpl. rewrite forallb_app, (H x (or_introl eq_refl)). simpl.
  apply IH. intros y Hy. apply H. now right.
Qed.

End Lines.

Section NestedFormat.

Variable number : Type.
Variable repr : number -> string.

Lemma format_matrix_and_field_lines_aux (indent_level : nat) :
  (forall m : matrix number,
      split_lines (format_matrix repr m indent_level)
      = "{" :: List.app
                 (List.concat
                    (map (fun r => item_lines indent_level
                                     (format_array repr r (indent_level + 1))) m))
                 [repeat_str "  " indent_level ++ "}"])
  /\ (forall fd : field_data number,
         split_lines (format_network_field repr fd indent_level)
         = "{" :: List.app
                    (List.concat
                       (map (fun m => item_lines indent_level
                                        (format_matrix repr m (indent_level + 1))) fd))
                    [repeat_str "  " indent_level ++ "}"]).
Proof.
  split.
  - intros m. unfold format_matrix.
    exact (split_lines_block
             (fun r => format_array repr r (indent_level + 1)) m indent_level).
  - intros fd. unfold format_network_field.
    exact (split_lines_block
             (fun m => format_matrix repr m (indent_level + 1)) fd indent_level).
Qed.

(** X1.  A matrix is rendered as an opening brace, the lines of its rows
    and a closing brace at the matrix's own depth; a field likewise from its
    matrices.  The lines of a nested item are the lines of its own
    rendering one level deeper, the first after the inner indentation and
    the last followed by a comma.  An empty matrix or field is the two
    braces alone. *)
Theorem format_matrix_and_field_nest (indent_level : nat) :
  (forall m : matrix number,
      split_lines (format_matrix repr m indent_level)
      = "{" :: List.app
                 (List.concat
                    (map (fun r => item_lines indent_level
                                     (format_array repr r (indent_level + 1))) m))
                 [repeat_str "  " indent_level ++ "}"])
  /\ (forall fd : field_data number,
         split_lines (format_network_field repr fd indent_level)
         = "{" :: List.app
                    (List.concat
                       (map (fun m => item_lines indent_level
                                        (format_matrix repr m (indent_level + 1))) fd))
                    [repeat_str "  " indent_level ++ "}"])
  /\ format_matrix repr [] indent_level
     = "{" ++ nl ++ repeat_str "  " indent_level ++ "}"
  /\ format_network_field repr [] indent_level
     = "{" ++ nl ++ repeat_str "  " indent_level ++ "}".
Proof.
  destruct (format_matrix_and_field_lines_aux indent_level) as [Hm Hfd].
  repeat split; [exact Hm|exact Hfd].
Qed.

Lemma format_array_tail_indented (values : list number) (indent_level : nat) :
  forallb (fun v => single_line (repr v)) values = true ->
  indented indent_level (tl (split_lines (format_array repr values indent_level)))
  = true.
Proof.
  intros Hall.
  destruct (Nat.eq_dec (List.length values) 1) as [H1|Hne].
  - destruct values as [|v [|v' rest]]; try discriminate.
    rewrite format_array_one_split; [reflexivity|].
    simpl in Hall. now rewrite andb_true_r in Hall.
  - rewrite (@format_array_block_split number repr values indent_level Hne Hall).
    unfold block_lines, indented. simpl tl.
    rewrite forallb_app. apply andb_true_iff. split.
    + apply forallb_forall. intros l Hl.
      apply in_map_iff in Hl as [v [<- _]]. unfold value_line.
      rewrite repeat_str_succ, append_assoc_string. apply starts_with_app.
    + simpl. now rewrite starts_with_app.
Qed.

Lemma block_tail_indented (n : nat) (body : list string) :
  indented (n + 1) body = true ->
  indented n (List.app body [repeat_str "  " n ++ "}"]) = true.
Proof.
  intros Hbody. apply indented_shallower in Hbody.
  unfold indented in *. rewrite forallb_app, Hbody. simpl.
  now rewrite starts_with_app.
Qed.

Lemma format_matrix_body_indented (m : matrix number) (indent_level : nat) :
  forallb (forallb (fun v => single_line (repr v))) m = true ->
  indented (indent_level + 1)
           (List.concat
              (map (fun r => item_lines indent_level
                               (format_array repr r (indent_level + 1))) m))
  = true.
Proof.
  intros Hall. apply indented_concat. intros r Hr.
  apply item_lines_indented. apply format_array_tail_indented.
  rewrite forallb_forall in Hall. now apply Hall.
Qed.

(** X2.  Indentation is hierarchical.  When no number's literal holds a
    line break, the rendering of a field at a given depth is an opening
    brace, then lines that all start with the indentation of the next
    depth, then the closing brace at the field's own depth. *)
Theorem format_network_field_indentation (fd : field_data number) (indent_level : nat) :
  all_values (fun v => single_line (repr v)) fd = true ->
  exists body,
    split_lines (format_network_field repr fd indent_level)
    = "{" :: List.app body [repeat_str "  " indent_level ++ "}"]
    /\ indented (indent_level + 1) body = true.
Proof.
  intros Hall. eexists. split.
  - exact (proj2 (format_matrix_and_field_lines_aux indent_level) fd).
  - apply indented_concat. intros m Hm.
    apply item_lines_indented.
    unfold all_values in Hall. rewrite forallb_forall in Hall.
    pose proof (proj1 (format_matrix_and_field_lines_aux (indent_level + 1)) m) as Hlines.
    rewrite Hlines. simpl tl.
    apply block_tail_indented.
    apply format_matrix_body_indented. now apply Hall.
Qed.

End NestedFormat.

Section Braces.

Variable number : Type.
Variable repr : number -> string.

Lemma count_char_app (c : ascii) (s t : string) :
  count_char c (s ++ t) = count_char c s + count_char c t.
Proof. induction s as [|a s IH]; simpl; [reflexivity|]. rewrite IH. lia. Qed.

Lemma count_char_join (c : ascii) (sep : string) (ls : list string) :
  count_char c sep = 0 ->
  count_char c (join sep ls) = list_sum (map (count_char c) ls).
Proof.
  intros Hsep. induction ls as [|l ls IH]; [reflexivity|].
  destruct ls as [|l' ls].
  - simpl. lia.
  - change (join sep (l :: l' :: ls)) with (l ++ sep ++ join sep (l' :: ls)).
    rewrite !count_char_app, IH, Hsep. simpl. lia.
Qed.

Lemma count_char_indent (c : ascii) (n : nat) :
  count_char c "  " = 0 -> count_char c (repeat_str "  " n) = 0.
Proof.
  intros Hc. induction n as [|n IH]; [reflexivity|].
  cbn [repeat_str]. now rewrite count_char_app, Hc, IH.
Qed.

(** The braces of a block are its own two and those of its items. *)
Lemma count_char_block (A : Type) (render : A -> string) (items : list A)
      (indent_level : nat) (c : ascii) :
  count_char c "  ," = 0 ->
  count_char c nl = 0 ->
  count_char c
    (join nl (append
                (fold_left
                   (fun lines x =>
                      append lines
                             (repeat_str "  " (indent_level + 1) ++ render x ++ ","))
                   items ["{"])
                (repeat_str "  " indent_level ++ "}")))
  = count_char c "{" + list_sum (map (fun x => count_char c (render x)) items)
    + count_char c "}".
Proof.
  intros Hpad Hnl.
  assert (Hsp : count_char c "  " = 0) by (simpl in *; lia).
  assert (Hcm : count_char c "," = 0) by (simpl in *; lia).
  rewrite (fold_left_append
             (fun x => repeat_str "  " (indent_level + 1) ++ render x ++ ",")).
  unfold append. rewrite count_char_join by assumption.
  rewrite !map_app, !list_sum_app, map_map. cbn [map list_sum].
  rewrite count_char_app, (@count_char_indent c _ Hsp).
  rewrite (map_ext _ (fun x => count_char c (render x))).
  - unfold list_sum at 1 3. cbn [fold_right]. lia.
  - intros x. rewrite !count_char_app, (@count_char_indent c _ Hsp), Hcm. lia.
Qed.

Lemma count_char_format_array (values : list number) (indent_level : nat) (c : ascii) :
  count_char c "  ," = 0 ->
  count_char c nl = 0 ->
  count_char c (format_array repr values indent_level)
  = count_char c "{" + list_sum (map (fun v => count_char c (repr v)) values)
    + count_char c "}".
Proof.
  intros Hpad Hnl.
  destruct values as [|v [|v' rest]].
  - exact (count_char_block repr [] indent_level c Hpad Hnl).
  - unfold format_array, format_number.
    rewrite !count_char_app. simpl in *.
    destruct (Ascii.eqb " " c); simpl in *; lia.
  - exact (count_char_block repr (v :: v' :: rest) indent_level c Hpad Hnl).
Qed.

Lemma list_sum_zero (A : Type) (f : A -> nat) (xs : list A) :
  (forall x, In x xs -> f x = 0) -> list_sum (map f xs) = 0.
Proof.
  induction xs as [|x xs IH]; intros H; [reflexivity|].
  simpl. rewrite (H x (or_introl eq_refl)), IH; [reflexivity|].
  intros y Hy. apply H. now right.
Qed.

Lemma list_sum_const (A : Type) (f : A -> nat) (k : nat) (xs : list A) :
  (forall x, In x xs -> f x = k) -> list_sum (map f xs) = k * List.length xs.
Proof.
  induction xs as [|x xs IH]; intros H; simpl; [lia|].
  rewrite (H x (or_introl eq_refl)), IH; [lia|].
  intros y Hy. apply H. now right.
Qed.

Lemma list_sum_succ (A : Type) (f : A -> nat) (xs : list A) :
  list_sum (map (fun x => S (f x)) xs) = List.length xs + list_sum (map f xs).
Proof. induction xs as [|x xs IH]; simpl; [reflexivity|]. rewrite IH. lia. Qed.

(** With brace-free literals a row holds one brace of each kind, whatever
    its length. *)
Lemma format_array_one_table (values : list number) (indent_level : nat) (c : ascii) :
  c = "{"%char \/ c = "}"%char ->
  forallb (fun v => brace_free (repr v)) values = true ->
  count_char c (format_array repr values indent_level) = 1.
Proof.
  intros Hc Hall.
  assert (Hzero : list_sum (map (fun v => count_char c (repr v)) values) = 0).
  { apply list_sum_zero. intros v Hv.
    rewrite forallb_forall in Hall. specialize (Hall v Hv).
    unfold brace_free in Hall. apply andb_true_iff in Hall as [Ho Hcl].
    apply Nat.eqb_eq in Ho, Hcl. now destruct Hc as [-> | ->]. }
  rewrite count_char_format_array; [|destruct Hc as [-> | ->]; reflexivity ..].
  rewrite Hzero. destruct Hc as [-> | ->]; reflexivity.
Qed.

Lemma format_matrix_tables (m : matrix number) (indent_level : nat) (c : ascii) :
  c = "{"%char \/ c = "}"%char ->
  forallb (forallb (fun v => brace_free (repr v))) m = true ->
  count_char c (format_matrix repr m indent_level) = S (List.length m).
Proof.
  intros Hc Hall. unfold format_matrix.
  rewrite (count_char_block (fun r => format_array repr r (indent_level + 1)));
    [|destruct Hc as [-> | ->]; reflexivity ..].
  rewrite (@list_sum_const _ _ 1).
  - unfold matrix, row in *. destruct Hc as [-> | ->]; simpl; lia.
  - intros r Hr. apply format_array_one_table; [assumption|].
    rewrite forallb_forall in Hall. now apply Hall.
Qed.

Lemma format_network_field_tables (fd : field_data number) (indent_level : nat)
      (c : ascii) :
  c = "{"%char \/ c = "}"%char ->
  all_values (fun v => brace_free (repr v)) fd = true ->
  count_char c (format_network_field repr fd indent_level) = table_count fd.
Proof.
  intros Hc Hall. unfold format_network_field, table_count.
  rewrite (count_char_block (fun m => format_matrix repr m (indent_level + 1)));
    [|destruct Hc as [-> | ->]; reflexivity ..].
  rewrite (map_ext_in
             (fun m => count_char c (format_matrix repr m (indent_level + 1)))
             (fun m => S (List.length m))).
  - rewrite list_sum_succ. unfold field_data, matrix, row in *.
    destruct Hc as [-> | ->]; simpl; lia.
  - intros m Hm. apply format_matrix_tables; [assumption|].
    unfold all_values in Hall. rewrite forallb_forall in Hall. now apply Hall.
Qed.

(** X3.  When no number's literal holds a brace, the rendering of a field
    holds as many opening as closing braces, one pair for the field, one
    per matrix and one per row, whatever the lengths of the rows. *)
Theorem format_network_field_brace_count (fd : field_data number) (indent_level : nat) :
  all_values (fun v => brace_free (repr v)) fd = true ->
  count_char "{" (format_network_field repr fd indent_level)
  = 1 + List.length fd + list_sum (map (@List.length (row number)) fd)
  /\ count_char "}" (format_network_field repr fd indent_level)
     = 1 + List.length fd + list_sum (map (@List.length (row number)) fd).
Proof.
  intros Hall. split.
  - exact (format_network_field_tables fd indent_level (or_introl eq_refl) Hall).
  - exact (format_network_field_tables fd indent_level (or_intror eq_refl) Hall).
Qed.

End Braces.

(** ** Further properties: the emitter *)

Section EmitterMore.

Variable number : Type.
Variable repr : number -> string.

Lemma emit_loop_missing (network : network_t number) (before after : list string)
      (missing : string) :
  (forall k, In k before -> contains network k = true) ->
  contains network missing = false ->
  forall lines,
    for_each (List.app before (missing :: after)) lines
      (fun lines key =>
         fd <- getitem network key ;;
         let formatted := format_network_field repr fd 2 in
         Ok (append lines
               ("    [" ++ dquote ++ key ++ dquote ++ "] = " ++ formatted ++ ",")))
    = Raise (KeyError missing).
Proof.
  intros Hbefore Hmissing.
  induction before as [|k before IH]; intros lines; simpl.
  - unfold getitem.
    destruct (get network missing) as [v|] eqn:E; [|reflexivity].
    assert (contains network missing = true) by (apply contains_get; now exists v).
    congruence.
  - destruct (proj1 (contains_get network k) (Hbefore k (or_introl eq_refl)))
      as [v Hv].
    unfold getitem at 1. rewrite Hv. simpl.
    apply IH. intros k' Hk'. apply Hbefore. now right.
Qed.

(** X4.  [generate_lua] looks the six keys up in canonical order without
    a guard of its own: it returns a text when the network holds them all,
    and otherwise raises the [KeyError] of the first key, in that order,
    that the network lacks. *)
Theorem generate_lua_key_lookup (version : string) (network : network_t number)
        (architecture : list nat) :
  ((forall k, In k NETWORK_KEY_ORDER -> contains network k = true) ->
   exists lua, generate_lua repr version network architecture = Ok lua)
  /\ (forall before missing after,
         NETWORK_KEY_ORDER = List.app before (missing :: after) ->
         (forall k, In k before -> contains network k = true) ->
         contains network missing = false ->
         generate_lua repr version network architecture
         = Raise (KeyError missing)).
Proof.
  split.
  - intros Hall.
    destruct (all_keys_present _ Hall)
      as (f1 & f2 & f3 & f4 & f5 & f6 & H1 & H2 & H3 & H4 & H5 & H6).
    eexists. apply generate_lua_lines; eassumption.
  - intros before missing after Hsplit Hbefore Hmissing.
    unfold generate_lua. rewrite Hsplit. cbv zeta.
    now rewrite emit_loop_missing.
Qed.

Lemma join_snoc (sep : string) (ls : list string) (x : string) :
  ls <> [] -> join sep (List.app ls [x]) = join sep ls ++ sep ++ x.
Proof.
  induction ls as [|l ls IH]; intros Hne; [congruence|].
  destruct ls as [|l' ls]; [reflexivity|].
  change (join sep (List.app (l :: l' :: ls) [x]))
    with (l ++ sep ++ join sep (List.app (l' :: ls) [x])).
  rewrite IH by discriminate.
  change (join sep (l :: l' :: ls)) with (l ++ sep ++ join sep (l' :: ls)).
  now rewrite !append_assoc_string.
Qed.

(** X5.  The generated text ends with the closing brace of the table
    followed by one line break. *)
Theorem generate_lua_trailing_newline (version : string) (network : network_t number)
        (architecture : list nat) :
  (forall k, In k NETWORK_KEY_ORDER -> contains network k = true) ->
  exists text,
    generate_lua repr version network architecture
    = Ok (text ++ nl ++ "}" ++ nl).
Proof.
  intros Hall.
  destruct (all_keys_present _ Hall)
    as (f1 & f2 & f3 & f4 & f5 & f6 & H1 & H2 & H3 & H4 & H5 & H6).
  rewrite (@generate_lua_lines number repr version network architecture
             f1 f2 f3 f4 f5 f6 H1 H2 H3 H4 H5 H6).
  unfold footer_lines.
  match goal with
  | |- context [join nl (List.app ?h (List.app ?f ["  },"; "}"; ""]))] =>
      replace (List.app h (List.app f ["  },"; "}"; ""]))
        with (List.app (List.app (List.app h (List.app f ["  },"])) ["}"]) [""])
        by (rewrite <- !app_assoc; reflexivity);
      exists (join nl (List.app h (List.app f ["  },"])))
  end.
  rewrite !join_snoc.
  - f_equal. rewrite !append_assoc_string. now rewrite append_empty_r.
  - unfold header_lines; discriminate.
  - unfold header_lines; discriminate.
Qed.

Lemma string_of_uint_brace_free (c : ascii) (d : Decimal.uint) :
  c = "{"%char \/ c = "}"%char ->
  count_char c (NilEmpty.string_of_uint d) = 0.
Proof.
  intros Hc. induction d; simpl; try rewrite IHd;
    destruct Hc as [-> | ->]; reflexivity.
Qed.

Lemma str_nat_brace_free (c : ascii) (n : nat) :
  c = "{"%char \/ c = "}"%char -> count_char c (str_nat n) = 0.
Proof.
  intros Hc. unfold str_nat, NilZero.string_of_uint.
  destruct (Nat.to_uint n) eqn:E;
    try (rewrite <- E; now apply string_of_uint_brace_free);
    try (now apply string_of_uint_brace_free).
  destruct Hc as [-> | ->]; reflexivity.
Qed.

Lemma arch_str_brace_free (c : ascii) (architecture : list nat) :
  c = "{"%char \/ c = "}"%char ->
  count_char c (join " -> " (map str_nat architecture)) = 0.
Proof.
  intros Hc. rewrite count_char_join by (destruct Hc as [-> | ->]; reflexivity).
  rewrite map_map. apply list_sum_zero.
  intros n _. now apply str_nat_brace_free.
Qed.

Lemma label_brace_free (c : ascii) (version : string) :
  c = "{"%char \/ c = "}"%char ->
  count_char c version = 0 ->
  count_char c (get_default version_labels version version) = 0.
Proof.
  intros Hc Hv. rewrite get_default_version_labels.
  destruct (String.eqb version "2.0-hinge"); [|assumption].
  destruct Hc as [-> | ->]; reflexivity.
Qed.

Lemma field_line_tables (c : ascii) (key : string) (fd : field_data number) :
  c = "{"%char \/ c = "}"%char ->
  count_char c key = 0 ->
  all_values (fun v => brace_free (repr v)) fd = true ->
  count_char c (field_line repr key fd) = table_count fd.
Proof.
  intros Hc Hkey Hall. unfold field_line.
  rewrite !count_char_app, Hkey,
    (@format_network_field_tables number repr fd 2 c Hc Hall).
  unfold table_count, field_data, matrix, row in *.
  destruct Hc as [-> | ->]; simpl; lia.
Qed.

Lemma brace_free_counts (c : ascii) (s : string) :
  c = "{"%char \/ c = "}"%char -> brace_free s = true -> count_char c s = 0.
Proof.
  intros Hc H. unfold brace_free in H. apply andb_true_iff in H as [Ho Hcl].
  apply Nat.eqb_eq in Ho, Hcl. now destruct Hc as [-> | ->].
Qed.

Lemma generate_lua_text_braces (c : ascii) (version : string)
      (architecture : list nat) (f1 f2 f3 f4 f5 f6 : field_data number) :
  c = "{"%char \/ c = "}"%char ->
  brace_free version = true ->
  forallb (all_values (fun v => brace_free (repr v))) [f1; f2; f3; f4; f5; f6] = true ->
  count_char c
    (join nl
       (List.app
          (header_lines (join " -> " (map str_nat architecture))
                        (get_default version_labels version version)
                        version)
          (List.app
             [ field_line repr "running_vars" f1;
               field_line repr "running_means" f2;
               field_line repr "weights" f3;
               field_line repr "betas" f4;
               field_line repr "gammas" f5;
               field_line repr "biases" f6 ]
             footer_lines)))
  = 2 + list_sum (map (@table_count (list number)) [f1; f2; f3; f4; f5; f6]).
Proof.
  intros Hc Hversion Hfields.
  cbn [forallb] in Hfields.
  repeat (apply andb_true_iff in Hfields as [? Hfields]).
  pose proof (@brace_free_counts c version Hc Hversion) as Hv.
  pose proof (@arch_str_brace_free c architecture Hc) as Ha.
  pose proof (@label_brace_free c version Hc Hv) as Hl.
  rewrite count_char_join by (destruct Hc as [-> | ->]; reflexivity).
  rewrite !map_app, !list_sum_app.
  unfold header_lines, footer_lines. cbn [map list_sum fold_right].
  rewrite !count_char_app, Ha, Hl, Hv.
  rewrite !field_line_tables;
    try assumption; try (destruct Hc as [-> | ->]; reflexivity).
  unfold table_count, field_data, matrix, row in *.
  destruct Hc as [-> | ->]; simpl; lia.
Qed.

(** X6.  With the six fields present, and no brace in the version string
    or in any number's literal, the generated text holds as many opening
    as closing braces: two for the outer tables and one for every field,
    matrix and row. *)
Theorem generate_lua_braces_balanced
        (version : string) (network : network_t number) (architecture : list nat)
        (f1 f2 f3 f4 f5 f6 : field_data number) :
  get network "running_vars" = Some f1 ->
  get network "running_means" = Some f2 ->
  get network "weights" = Some f3 ->
  get network "betas" = Some f4 ->
  get network "gammas" = Some f5 ->
  get network "biases" = Some f6 ->
  brace_free version = true ->
  forallb (all_values (fun v => brace_free (repr v))) [f1; f2; f3; f4; f5; f6] = true ->
  exists lua,
    generate_lua repr version network architecture = Ok lua
    /\ count_char "{" lua = count_char "}" lua
    /\ count_char "{" lua
       = 2 + list_sum (map (@table_count (list number)) [f1; f2; f3; f4; f5; f6]).
Proof.
  intros H1 H2 H3 H4 H5 H6 Hversion Hfields.
  eexists. split; [apply generate_lua_lines; eassumption|].
  rewrite (@generate_lua_text_braces "{" version architecture f1 f2 f3 f4 f5 f6
             (or_introl eq_refl) Hversion Hfields).
  rewrite (@generate_lua_text_braces "}" version architecture f1 f2 f3 f4 f5 f6
             (or_intror eq_refl) Hversion Hfields).
  split; reflexivity.
Qed.

End EmitterMore.

(** ** Further properties: architecture inference *)

Section ArchitectureMore.

Variable number : Type.

Lemma columns_loop_first_rows (ws ws' : list (matrix number)) :
  map (@first_row_length number) ws = map (@first_row_length number) ws' ->
  forall arch,
    for_each ws arch
      (fun arch layer => r0 <- index layer 0 ;; Ok (append arch (List.length r0)))
    = for_each ws' arch
        (fun arch layer => r0 <- index layer 0 ;; Ok (append arch (List.length r0))).
Proof.
  revert ws'. induction ws as [|m ws IH]; intros [|m' ws'] Hmap arch;
    try discriminate; [reflexivity|].
  simpl in Hmap. injection Hmap as Hm Hrest.
  simpl. destruct m as [|r rows], m' as [|r' rows']; try discriminate.
  - reflexivity.
  - simpl in *. injection Hm as ->. now apply IH.
Qed.

(** X7.  [infer_architecture] looks at the number of rows of the first
    matrix and at the first row of every matrix, and at nothing else: two
    lists of matrices that agree on these give the same result, so the
    remaining rows and the row counts of the later matrices are never
    checked against the layer before. *)
Theorem infer_architecture_first_rows_only (ws ws' : list (matrix number)) :
  row_count (hd [] ws) = row_count (hd [] ws') ->
  map (@first_row_length number) ws = map (@first_row_length number) ws' ->
  infer_architecture ws = infer_architecture ws'.
Proof.
  intros Hrows Hmap.
  destruct ws as [|m ws], ws' as [|m' ws']; try discriminate; [reflexivity|].
  unfold infer_architecture. cbn [is_empty index nth_error bind].
  simpl in Hrows. unfold row_count in Hrows. rewrite Hrows.
  now apply columns_loop_first_rows.
Qed.





End ArchitectureMore.

(** X7 on a 3x5 matrix followed by a 5x2 matrix, and on the same 3x5
    matrix followed by a 4x2 matrix. *)
Lemma infer_architecture_first_rows_only_witness :
  row_count (hd [] [IntDoc.layer1; IntDoc.layer2])
  = row_count (hd [] IntRun.mismatched)
  /\ map (@first_row_length IntDoc.number) [IntDoc.layer1; IntDoc.layer2]
     = map (@first_row_length IntDoc.number) IntRun.mismatched
  /\ infer_architecture IntRun.mismatched = Ok [3; 5; 2].
Proof.
  split; [reflexivity|split; [reflexivity|]].
  rewrite <- (@infer_architecture_first_rows_only
                IntDoc.number [IntDoc.layer1; IntDoc.layer2] IntRun.mismatched
                eq_refl eq_refl).
  reflexivity.
Defined.

(** ** Further properties: the program *)

Section ProgramMore.

Variable number : Type.
Variable repr : number -> string.
Variable json_load : string -> json_load_result number.
Variable output_path : string.

(** Either every check before the network keys passes, or the run ends in
    [die] with the message of the first check that fails. *)
Lemma main_loads_or_dies (arg_input : option string) (fs : filesystem) :
  (exists version network, loads json_load arg_input fs version network)
  \/ (exists msg,
         main repr json_load output_path arg_input fs = die fs ("Error: " ++ msg)).
Proof.
  destruct (fs (input_path arg_input)) as [text|] eqn:Hfile.
  - destruct (json_load text)
      as [e|[[[[[[version|] [network|]]|]]|]]] eqn:Hload;
      try (right; unfold main; fold (input_path arg_input);
           rewrite Hfile, Hload; simpl; eexists; reflexivity).
    left. exists version, network, text. now split.
  - right. unfold main. fold (input_path arg_input). rewrite Hfile.
    eexists. reflexivity.
Qed.


Lemma find_missing_all_present (network : network_t number) :
  (forall k, In k NETWORK_KEY_ORDER -> contains network k = true) ->
  find (fun key => negb (contains network key)) NETWORK_KEY_ORDER = None.
Proof.
  intros Hall.
  destruct (find _ NETWORK_KEY_ORDER) as [k|] eqn:Hfind; [|reflexivity].
  apply find_some in Hfind as [Hin Hk]. cbv beta in Hk.
  rewrite (Hall k Hin) in Hk. discriminate.
Qed.

Lemma generate_lua_all_present (version : string) (network : network_t number)
      (architecture : list nat) :
  (forall k, In k NETWORK_KEY_ORDER -> contains network k = true) ->
  exists lua, generate_lua repr version network architecture = Ok lua.
Proof.
  intros Hall.
  destruct (all_keys_present _ Hall)
    as (f1 & f2 & f3 & f4 & f5 & f6 & H1 & H2 & H3 & H4 & H5 & H6).
  eexists. apply generate_lua_lines; eassumption.
Qed.

(** The run once the six keys are known to be present. *)
Lemma main_all_present (arg_input : option string) (fs : filesystem)
      (version : string) (network : network_t number) :
  loads json_load arg_input fs version network ->
  (forall k, In k NETWORK_KEY_ORDER -> contains network k = true) ->
  exists weights,
    get network "weights" = Some weights
    /\ main repr json_load output_path arg_input fs
       = match infer_architecture weights with
         | Raise e =>
             {| stdout := []; stderr := []; term := Uncaught e; files := fs |}
         | Ok architecture =>
             match generate_lua repr version network architecture with
             | Raise e =>
                 {| stdout := []; stderr := []; term := Uncaught e; files := fs |}
             | Ok lua_content =>
                 {| stdout :=
                      [ "Wrote default weights to " ++ output_path;
                        "  Architecture: " ++ join " -> " (map str_nat architecture);
                        "  Version: " ++ version;
                        "  Extracted: " ++ join ", " NETWORK_KEY_ORDER ];
                    stderr := [];
                    term := Exit 0;
                    files := write_file fs output_path lua_content |}
             end
         end.
Proof.
  intros Hload Hall.
  destruct (proj1 (contains_get network "weights")
                  (Hall "weights" ltac:(simpl; tauto))) as [weights Hw].
  exists weights. split; [assumption|].
  rewrite (main_after_load repr output_path Hload).
  rewrite (find_missing_all_present _ Hall).
  unfold getitem. rewrite Hw. cbn [bind].
  destruct (infer_architecture weights) as [architecture|e]; [|reflexivity].
  cbn [bind].
  destruct (generate_lua repr version network architecture); reflexivity.
Qed.

(** X8.  A run that passes every check writes the text of [generate_lua]
    for the inferred architecture to the output path, replacing what was
    there, leaves every other file as it was, prints nothing to the error
    stream, prints the four summary lines and ends with status 0. *)
Theorem main_success (arg_input : option string) (fs : filesystem)
        (version : string) (network : network_t number)
        (weights : list (matrix number)) (architecture : list nat) :
  loads json_load arg_input fs version network ->
  (forall k, In k NETWORK_KEY_ORDER -> contains network k = true) ->
  get network "weights" = Some weights ->
  infer_architecture weights = Ok architecture ->
  let r := main repr json_load output_path arg_input fs in
  exists lua_content,
    generate_lua repr version network architecture = Ok lua_content
    /\ term r = Exit 0
    /\ stderr r = []
    /\ stdout r
       = [ "Wrote default weights to " ++ output_path;
           "  Architecture: " ++ join " -> " (map str_nat architecture);
           "  Version: " ++ version;
           "  Extracted: running_vars, running_means, weights, betas, gammas, biases" ]
    /\ files r output_path = Some lua_content
    /\ (forall path, path <> output_path -> files r path = fs path).
Proof.
  intros Hload Hall Hw Harch r. subst r.
  destruct (main_all_present Hload Hall) as (weights' & Hw' & Hmain).
  rewrite Hw in Hw'. injection Hw' as <-.
  destruct (@generate_lua_all_present version network architecture Hall) as [lua Hlua].
  exists lua. split; [assumption|].
  rewrite Hmain, Harch, Hlua. cbn [term stderr stdout files].
  repeat (split; [reflexivity|]). unfold write_file. split.
  - now rewrite String.eqb_refl.
  - intros path Hne. now destruct (String.eqb_spec path output_path).
Qed.



(** X11.  No run changes a file other than the output file. *)
Theorem main_touches_only_output_path
        (arg_input : option string) (fs : filesystem) (path : string) :
  path <> output_path ->
  files (main repr json_load output_path arg_input fs) path = fs path.
Proof.
  intros Hne.
  destruct (main_loads_or_dies arg_input fs) as [(version & network & Hload)|[msg Hdie]].
  - rewrite (main_after_load repr output_path Hload).
    destruct (find _ NETWORK_KEY_ORDER) as [key|]; [reflexivity|].
    destruct (bind _ _) as [[architecture lua_content]|e]; [|reflexivity].
    cbn [files]. unfold write_file.
    now destruct (String.eqb_spec path output_path).
  - now rewrite Hdie.
Qed.

(** Two file systems that agree on the input file give the same run, up
    to the files it starts from. *)
Lemma main_same_input (arg_input : option string) (fs1 fs2 : filesystem) :
  fs1 (input_path arg_input) = fs2 (input_path arg_input) ->
  stdout (main repr json_load output_path arg_input fs1)
  = stdout (main repr json_load output_path arg_input fs2)
  /\ stderr (main repr json_load output_path arg_input fs1)
     = stderr (main repr json_load output_path arg_input fs2)
  /\ term (main repr json_load output_path arg_input fs1)
     = term (main repr json_load output_path arg_input fs2)
  /\ ((files (main repr json_load output_path arg_input fs1) = fs1
       /\ files (main repr json_load output_path arg_input fs2) = fs2)
      \/ (exists lua_content,
             files (main repr json_load output_path arg_input fs1)
             = write_file fs1 output_path lua_content
             /\ files (main repr json_load output_path arg_input fs2)
                = write_file fs2 output_path lua_content)).
Proof.
  intros Hsame. unfold main. fold (input_path arg_input). rewrite Hsame.
  destruct (fs2 (input_path arg_input)) as [text|]; [|repeat split; now left].
  destruct (json_load text) as [e|data]; [repeat split; now left|].
  destruct (key_nn data) as [nn|]; [|repeat split; now left].
  destruct (key_nn_nn nn) as [nn_data|]; [|repeat split; now left].
  destruct (key_version nn_data) as [version|]; [|repeat split; now left].
  destruct (key_network nn_data) as [network|]; [|repeat split; now left].
  destruct (find _ NETWORK_KEY_ORDER) as [key|]; [repeat split; now left|].
  destruct (bind _ _) as [[architecture lua_content]|e];
    [|repeat split; now left].
  repeat split. right. now exists lua_content.
Qed.

(** X12.  Running the program again changes nothing more: when the input
    path is not the output path, a second run on the files the first one
    left prints the same, ends the same and leaves every file as the first
    run left it. *)
Theorem main_idempotent (arg_input : option string) (fs : filesystem) :
  input_path arg_input <> output_path ->
  let r1 := main repr json_load output_path arg_input fs in
  let r2 := main repr json_load output_path arg_input (files r1) in
  stdout r2 = stdout r1
  /\ stderr r2 = stderr r1
  /\ term r2 = term r1
  /\ (forall path, files r2 path = files r1 path).
Proof.
  intros Hne r1 r2. subst r1 r2.
  assert (Hinput : files (main repr json_load output_path arg_input fs)
                         (input_path arg_input)
                   = fs (input_path arg_input)).
  { destruct (main_loads_or_dies arg_input fs)
      as [(version & network & Hload)|[msg Hdie]].
    - rewrite (main_after_load repr output_path Hload).
      destruct (find _ NETWORK_KEY_ORDER) as [key|]; [reflexivity|].
      destruct (bind _ _) as [[architecture lua_content]|e]; [|reflexivity].
      cbn [files]. unfold write_file.
      now destruct (String.eqb_spec (input_path arg_input) output_path).
    - now rewrite Hdie. }
  destruct (@main_same_input arg_input _ _ Hinput)
    as (Hout & Herr & Hterm & Hfiles).
  repeat (split; [assumption|]).
  intros path. destruct Hfiles as [[Hsame _]|(lua & Hw2 & Hw1)].
  - now rewrite Hsame.
  - rewrite Hw2, Hw1. unfold write_file.
    now destruct (String.eqb path output_path).
Qed.

(** X13.  A weights list that holds a matrix with no rows passes the key
    checks and then stops the program with the uncaught [IndexError] of
    the first-row lookup: no [Error:] line is printed and no file is
    written. *)
Theorem main_zero_row_matrix (arg_input : option string) (fs : filesystem)
        (version : string) (network : network_t number)
        (weights : list (matrix number)) :
  loads json_load arg_input fs version network ->
  (forall k, In k NETWORK_KEY_ORDER -> contains network k = true) ->
  get network "weights" = Some weights ->
  In [] weights ->
  let r := main repr json_load output_path arg_input fs in
  term r = Uncaught (IndexError "list index out of range")
  /\ stderr r = []
  /\ stdout r = []
  /\ files r = fs.
Proof.
  intros Hload Hall Hw Hzero r. subst r.
  destruct (main_all_present Hload Hall) as (weights' & Hw' & Hmain).
  rewrite Hw in Hw'. injection Hw' as <-.
  assert (Harch : infer_architecture weights
                  = Raise (IndexError "list index out of range")).
  { destruct weights as [|first rest]; [contradiction|].
    unfold infer_architecture. cbn [is_empty index nth_error bind].
    exact (columns_loop_zero_row _ Hzero [List.length first]). }
  rewrite Hmain, Harch. repeat split.
Qed.

End ProgramMore.

(** ** The further properties on the integer-valued documents *)

Lemma full_network_all_keys :
  forall k, In k NETWORK_KEY_ORDER -> contains IntDoc.full_network k = true.
Proof.
  intros k Hk. simpl in Hk.
  repeat (destruct Hk as [<-|Hk]; [reflexivity|]).
  contradiction.
Qed.

Lemma zero_row_network_all_keys :
  forall k, In k NETWORK_KEY_ORDER -> contains IntRun.zero_row_network k = true.
Proof.
  intros k Hk. simpl in Hk.
  repeat (destruct Hk as [<-|Hk]; [reflexivity|]).
  contradiction.
Qed.

Lemma full_document_loads :
  loads IntRun.json_load None (IntRun.with_old_output IntRun.full_text)
        "2.0-hinge" IntDoc.full_network.
Proof. exists IntRun.full_text. split; reflexivity. Qed.

Lemma zero_row_document_loads :
  loads IntRun.json_load None (IntRun.with_old_output IntRun.zero_row_text)
        "2.0-hinge" IntRun.zero_row_network.
Proof. exists IntRun.zero_row_text. split; reflexivity. Qed.

(** X2 on a field of one 2x2 matrix at depth 2. *)
Lemma format_network_field_indentation_witness :
  all_values (fun v => single_line (repr_int v)) IntDoc.weights1 = true
  /\ exists body,
       split_lines (format_network_field repr_int IntDoc.weights1 2)
       = "{" :: List.app body ["    }"]
       /\ indented 3 body = true.
Proof.
  split; [reflexivity|].
  exact (@format_network_field_indentation
           IntDoc.number repr_int IntDoc.weights1 2 eq_refl).
Defined.

(** X3 on a field of one 2x2 matrix: one table for the field, one for the
    matrix, two for the rows. *)
Lemma format_network_field_brace_count_witness :
  all_values (fun v => brace_free (repr_int v)) IntDoc.weights1 = true
  /\ count_char "{" (format_network_field repr_int IntDoc.weights1 2) = 4
  /\ count_char "}" (format_network_field repr_int IntDoc.weights1 2) = 4.
Proof.
  split; [reflexivity|].
  exact (@format_network_field_brace_count
           IntDoc.number repr_int IntDoc.weights1 2 eq_refl).
Defined.

(** X4 on a complete network, and on a network without [biases]. *)
Lemma generate_lua_key_lookup_witness :
  (exists lua, generate_lua repr_int "2.0-hinge" IntDoc.full_network [2; 2] = Ok lua)
  /\ contains IntDoc.no_biases_network "biases" = false
  /\ generate_lua repr_int "2.0-hinge" IntDoc.no_biases_network [2; 2]
     = Raise (KeyError "biases").
Proof.
  split; [|split; [reflexivity|]].
  - exact (proj1 (@generate_lua_key_lookup
                    IntDoc.number repr_int "2.0-hinge" IntDoc.full_network [2; 2])
                 full_network_all_keys).
  - apply (proj2 (@generate_lua_key_lookup
                    IntDoc.number repr_int "2.0-hinge" IntDoc.no_biases_network [2; 2])
                 ["running_vars"; "running_means"; "weights"; "betas"; "gammas"]
                 "biases" []).
    + reflexivity.
    + intros k Hk. simpl in Hk.
      repeat (destruct Hk as [<-|Hk]; [reflexivity|]).
      contradiction.
    + reflexivity.
Defined.

(** X5 on a complete network. *)
Lemma generate_lua_trailing_newline_witness :
  (forall k, In k NETWORK_KEY_ORDER -> contains IntDoc.full_network k = true)
  /\ exists text,
       generate_lua repr_int "2.0-hinge" IntDoc.full_network [2; 2]
       = Ok (text ++ nl ++ "}" ++ nl).
Proof.
  split; [exact full_network_all_keys|].
  exact (@generate_lua_trailing_newline
           IntDoc.number repr_int "2.0-hinge" IntDoc.full_network [2; 2]
           full_network_all_keys).
Defined.

(** X6 on a complete network: two outer tables, and per field one table
    for the field, one for its matrix and one per row. *)
Lemma generate_lua_braces_balanced_witness :
  brace_free "2.0-hinge" = true
  /\ forallb (all_values (fun v => brace_free (repr_int v)))
             [ IntDoc.vars1; IntDoc.means1; IntDoc.weights1;
               IntDoc.betas1; IntDoc.gammas1; IntDoc.biases1 ] = true
  /\ exists lua,
       generate_lua repr_int "2.0-hinge" IntDoc.full_network [2; 2] = Ok lua
       /\ count_char "{" lua = count_char "}" lua
       /\ count_char "{" lua = 21.
Proof.
  split; [reflexivity|split; [reflexivity|]].
  exact (@generate_lua_braces_balanced
           IntDoc.number repr_int "2.0-hinge" IntDoc.full_network [2; 2]
           IntDoc.vars1 IntDoc.means1 IntDoc.weights1
           IntDoc.betas1 IntDoc.gammas1 IntDoc.biases1
           eq_refl eq_refl eq_refl eq_refl eq_refl eq_refl eq_refl eq_refl).
Defined.

(** X8 on a complete document, with an older output file in place. *)
Lemma main_success_witness :
  loads IntRun.json_load None (IntRun.with_old_output IntRun.full_text)
        "2.0-hinge" IntDoc.full_network
  /\ get IntDoc.full_network "weights" = Some IntDoc.weights1
  /\ infer_architecture IntDoc.weights1 = Ok [2; 2]
  /\ exists lua_content,
       generate_lua repr_int "2.0-hinge" IntDoc.full_network [2; 2] = Ok lua_content
       /\ term (IntRun.main None (IntRun.with_old_output IntRun.full_text)) = Exit 0
       /\ files (IntRun.main None (IntRun.with_old_output IntRun.full_text))
                IntDoc.output_path
          = Some lua_content
       /\ files (IntRun.main None (IntRun.with_old_output IntRun.full_text))
                "./weights.json"
          = Some IntRun.full_text.
Proof.
  split; [exact full_document_loads|].
  split; [reflexivity|split; [reflexivity|]].
  destruct (@main_success
              IntDoc.number repr_int IntRun.json_load IntDoc.output_path
              None (IntRun.with_old_output IntRun.full_text)
              "2.0-hinge" IntDoc.full_network IntDoc.weights1 [2; 2]
              full_document_loads full_network_all_keys eq_refl eq_refl)
    as (lua & Hlua & Hterm & _ & _ & Hout & Hother).
  exists lua. repeat (split; [assumption|]).
  assert (Hne : "./weights.json" <> IntDoc.output_path) by discriminate.
  exact (Hother "./weights.json" Hne).
Defined.


(** X11 on a complete document: the input file is as it was. *)
Lemma main_touches_only_output_path_witness :
  "./weights.json" <> IntDoc.output_path
  /\ files (IntRun.main None (IntRun.with_old_output IntRun.full_text))
           "./weights.json"
     = Some IntRun.full_text.
Proof.
  assert (Hne : "./weights.json" <> IntDoc.output_path) by discriminate.
  split; [exact Hne|].
  exact (@main_touches_only_output_path
           IntDoc.number repr_int IntRun.json_load IntDoc.output_path
           None (IntRun.with_old_output IntRun.full_text) "./weights.json" Hne).
Defined.

(** X12 on a complete document. *)
Lemma main_idempotent_witness :
  input_path None <> IntDoc.output_path
  /\ forall path,
       files (IntRun.main None
                (files (IntRun.main None (IntRun.with_old_output IntRun.full_text))))
             path
       = files (IntRun.main None (IntRun.with_old_output IntRun.full_text)) path.
Proof.
  assert (Hne : input_path None <> IntDoc.output_path) by discriminate.
  split; [exact Hne|].
  exact (proj2 (proj2 (proj2
    (@main_idempotent
       IntDoc.number repr_int IntRun.json_load IntDoc.output_path
       None (IntRun.with_old_output IntRun.full_text) Hne)))).
Defined.

(** X13 on a document whose second weight matrix has no rows. *)
Lemma main_zero_row_matrix_witness :
  loads IntRun.json_load None (IntRun.with_old_output IntRun.zero_row_text)
        "2.0-hinge" IntRun.zero_row_network
  /\ In [] [ [ [1; 2]; [3; 4] ]; [] ]%Z
  /\ term (IntRun.main None (IntRun.with_old_output IntRun.zero_row_text))
     = Uncaught (IndexError "list index out of range")
  /\ files (IntRun.main None (IntRun.with_old_output IntRun.zero_row_text))
     = IntRun.with_old_output IntRun.zero_row_text.
Proof.
  assert (Hzero : In [] [ [ [1; 2]; [3; 4] ]; [] ]%Z) by (right; now left).
  split; [exact zero_row_document_loads|split; [exact Hzero|]].
  destruct (@main_zero_row_matrix
              IntDoc.number repr_int IntRun.json_load IntDoc.output_path
              None (IntRun.with_old_output IntRun.zero_row_text)
              "2.0-hinge" IntRun.zero_row_network [ [ [1; 2]; [3; 4] ]; [] ]%Z
              zero_row_document_loads zero_row_network_all_keys eq_refl Hzero)
    as (Hterm & _ & _ & Hfiles).
  split; assumption.
Defined.

(** X14 on a complete document, with and without an older output file. *)
Lemma main_reads_input_file_only_witness :
  IntDoc.only_weights_json IntRun.full_text (input_path None)
  = IntRun.with_old_output IntRun.full_text (input_path None)
  /\ term (IntRun.main None (IntDoc.only_weights_json IntRun.full_text))
     = term (IntRun.main None (IntRun.with_old_output IntRun.full_text))
  /\ files (IntRun.main None (IntDoc.only_weights_json IntRun.full_text))
           IntDoc.output_path
     = files (IntRun.main None (IntRun.with_old_output IntRun.full_text))
             IntDoc.output_path.
Proof.
  split; [reflexivity|].
  destruct (@main_reads_input_file_only
              IntDoc.number repr_int IntRun.json_load IntDoc.output_path
              None (IntDoc.only_weights_json IntRun.full_text)
              (IntRun.with_old_output IntRun.full_text) eq_refl)
    as (_ & _ & Hterm & Hfiles).
  split; [exact Hterm|].
  apply Hfiles. reflexivity.
Defined.
